(** * backend/app.py: Google Search + embedding similarity + Gemini

    A shallow embedding of [src/backend/app.py] and the properties of its
    three-stage pipeline: search, similarity filter, grounded generation.

    - Python floats and numpy's float64 are IEEE binary64 values, modelled by
      the Standard Library's [spec_float] at precision 53, with its
      comparisons (a comparison with NaN is false).
    - The external collaborators (the search, embedding and generation
      providers, numpy's kernels and the process configuration) are the
      fields of an [environment]; every outbound call is appended to a log,
      the [world] the code runs in.
    - Python exceptions are the [Raise] outcomes of a state-and-exception
      monad; [try ... except Exception] is [try_except].
    - A search result is a dict with the keys title, link and snippet and,
      once scored, similarity_score: a record whose last field is optional.
      [google_search] builds a fresh dict for every item, so no dict occurs
      twice in a list and the in-place update of the filter is a functional
      update of the list element.
    - [print] only writes to the console and is left out. *)

From Stdlib Require Import ZArith List String Ascii Bool Lia.
From Stdlib Require Import Sorting.Sorted Sorting.Permutation.
From Stdlib Require Import Floats.SpecFloat.
From Stdlib Require Import Decimal DecimalString.
Import ListNotations.

Local Open Scope list_scope.
Local Open Scope string_scope.

(** ** Binary64 floats *)

Definition float := spec_float.

Definition prec : Z := 53.
Definition emax : Z := 1024.

Definition fmul : float -> float -> float := SFmul prec emax.
Definition fdiv : float -> float -> float := SFdiv prec emax.
Definition fadd : float -> float -> float := SFadd prec emax.
Definition fsqrt : float -> float := SFsqrt prec emax.

(** [x < y], [x >= y] and [x == y] of Python floats. *)
Definition flt (x y : float) : bool := SFltb x y.
Definition fge (x y : float) : bool := SFleb y x.
Definition feqb (x y : float) : bool := SFeqb x y.

Definition fzero : float := S754_zero false.
Definition fone : float := S754_finite false 4503599627370496 (-52).

(** The literal [0.3], that is 0x1.3333333333333p-2. *)
Definition lit_0_3 : float := S754_finite false 5404319552844595 (-54).

(** ** Text *)

Definition nl : string := String (ascii_of_nat 10) EmptyString.

(** [str(n)] of a non-negative integer. *)
Definition str_nat (n : nat) : string := NilZero.string_of_uint (Nat.to_uint n).
Definition str_Z (n : Z) : string := NilZero.string_of_uint (N.to_uint (Z.to_N n)).

(** [not s] of a Python string: true on the empty string only. *)
Definition is_empty (s : string) : bool :=
  match s with EmptyString => true | String _ _ => false end.

(** [needle in haystack]. *)
Fixpoint occurs (needle haystack : string) : bool :=
  String.prefix needle haystack ||
  match haystack with
  | EmptyString => false
  | String _ rest => occurs needle rest
  end.

(** Round [num / den] to the nearest integer, ties to even ([0 < den]). *)
Definition round_half_even (num den : Z) : Z :=
  let q := (num / den)%Z in
  let r := (num mod den)%Z in
  if (2 * r <? den)%Z then q
  else if (2 * r =? den)%Z then (if Z.even q then q else q + 1)%Z
  else (q + 1)%Z.

Definition sign_text (s : bool) : string := if s then "-" else "".

Definition two_digits (n : Z) : string :=
  (if (n <? 10)%Z then "0" else "") ++ str_Z n.

(** The format spec [.2f] of a Python float: the exact binary value rounded
    to hundredths, ties to even; the sign is kept on a result that rounds to
    zero; infinities and NaN print as [inf] and [nan]. *)
Definition format_2f (x : float) : string :=
  match x with
  | S754_nan => "nan"
  | S754_infinity s => sign_text s ++ "inf"
  | S754_zero s => sign_text s ++ "0.00"
  | S754_finite s m e =>
      let h := if (0 <=? e)%Z then (100 * Z.pos m * 2 ^ e)%Z
               else round_half_even (100 * Z.pos m) (2 ^ (- e)) in
      sign_text s ++ str_Z (h / 100) ++ "." ++ two_digits (h mod 100)
  end.

(** ** Exceptions and outcomes *)

Inductive exn : Type :=
| KeyError (key : string)
| ValueError (msg : string)
| ProviderError (msg : string).

(** [str(e)]: a KeyError prints the repr of its key. *)
Definition str_exn (e : exn) : string :=
  match e with
  | KeyError key => "'" ++ key ++ "'"
  | ValueError msg => msg
  | ProviderError msg => msg
  end.

Inductive outcome (A : Type) : Type :=
| Ok (a : A)
| Raise (e : exn).
Arguments Ok {A} a.
Arguments Raise {A} e.

(** ** Data model *)

Definition vec := list float.

(** An item of the search provider's answer: a dict read with [.get]. *)
Record item : Type := mk_item {
  item_title : option string;
  item_link : option string;
  item_snippet : option string
}.

Record search_result : Type := mk_result {
  title : string;
  link : string;
  snippet : string;
  similarity_score : option float
}.

(** [result['similarity_score'] = s]. *)
Definition set_similarity_score (r : search_result) (s : float) : search_result :=
  {| title := title r; link := link r; snippet := snippet r;
     similarity_score := Some s |}.

(** The JSON body of a response: the keys that are present. *)
Record body : Type := mk_body {
  b_error : option string;
  b_answer : option string;
  b_sources : option (list search_result);
  b_total_found : option nat;
  b_filtered_count : option nat
}.

(** A response: the body and the HTTP status. *)
Definition response : Type := body * nat.

(** The parsed JSON object of a request, as an association list. *)
Definition json_object := list (string * string).

(** [data.get(key, default)]. *)
Fixpoint dict_get (data : json_object) (key default : string) : string :=
  match data with
  | [] => default
  | (k, v) :: rest => if String.eqb k key then v else dict_get rest key default
  end.

(** ** The world: the log of outbound calls *)

Inductive call : Type :=
| SearchCall (q developerKey cx : string) (num : nat)
| EmbedCall (model contents : string)
| GenerateCall (model contents : string).

Definition world := list call.

Definition is_embed_call (c : call) : bool :=
  match c with EmbedCall _ _ => true | _ => false end.

(** How many embedding calls the log holds. *)
Definition embed_calls (w : world) : nat := List.length (filter is_embed_call w).

(** The collaborators of the module and its configuration. The embedding
    provider's answer may depend on how many embedding calls came before. *)
Record environment : Type := mk_env {
  GOOGLE_SEARCH_API_KEY : string;
  GOOGLE_SEARCH_ENGINE_ID : string;
  cse_list : string -> string -> string -> nat -> outcome (option (list item));
  embed_content : nat -> string -> string -> outcome vec;
  generate_content : string -> string -> outcome string;
  np_dot : vec -> vec -> outcome float;
  np_linalg_norm : vec -> float
}.

(** ** The state-and-exception monad of the handlers *)

Definition M (A : Type) : Type := world -> outcome A * world.

Definition ret {A} (a : A) : M A := fun w => (Ok a, w).

Definition bind {A B} (m : M A) (k : A -> M B) : M B :=
  fun w =>
    match m w with
    | (Ok a, w') => k a w'
    | (Raise e, w') => (Raise e, w')
    end.

Definition lift {A} (o : outcome A) : M A := fun w => (o, w).

(** [try: m  except Exception as e: handler e]. *)
Definition try_except {A} (m : M A) (handler : exn -> M A) : M A :=
  fun w =>
    match m w with
    | (Ok a, w') => (Ok a, w')
    | (Raise e, w') => handler e w'
    end.

(** An outbound call: logged, then answered. *)
Definition outbound {A} (c : call) (answer : outcome A) : M A :=
  fun w => (answer, (w ++ [c])%list).

Declare Scope py_scope.
Delimit Scope py_scope with py.
Notation "x <- m ;; k" := (bind m (fun x => k))
  (at level 100, m at next level, right associativity) : py_scope.
Local Open Scope py_scope.

(** [for x in l: s = body x s]. *)
Fixpoint for_each {A S : Type} (l : list A) (body : A -> S -> M S) (s : S) : M S :=
  match l with
  | [] => ret s
  | x :: rest => s' <- body x s ;; for_each rest body s'
  end.

(** [list.sort(key=key, reverse=True)]: the keys are computed first (a key
    that raises aborts the sort), the elements are compared by [<] on their
    keys with each comparison reversed, and the sort is stable. Modelled as a
    stable insertion sort on the decorated list. *)
Fixpoint insert_reverse {A : Type} (k : float) (x : A) (l : list (float * A))
  : list (float * A) :=
  match l with
  | [] => [(k, x)]
  | (k', y) :: rest =>
      if flt k k' then (k', y) :: insert_reverse k x rest
      else (k, x) :: (k', y) :: rest
  end.

Fixpoint sort_reverse {A : Type} (l : list (float * A)) : list (float * A) :=
  match l with
  | [] => []
  | (k, x) :: rest => insert_reverse k x (sort_reverse rest)
  end.

Fixpoint decorate {A : Type} (key : A -> outcome float) (l : list A)
  : outcome (list (float * A)) :=
  match l with
  | [] => Ok []
  | x :: rest =>
      match key x with
      | Raise e => Raise e
      | Ok k =>
          match decorate key rest with
          | Raise e => Raise e
          | Ok d => Ok ((k, x) :: d)
          end
      end
  end.

Definition list_sort_reverse {A : Type} (key : A -> outcome float) (l : list A)
  : outcome (list A) :=
  match decorate key l with
  | Raise e => Raise e
  | Ok d => Ok (map snd (sort_reverse d))
  end.

(** [x['similarity_score']]. *)
Definition get_similarity_score (x : search_result) : outcome float :=
  match similarity_score x with
  | Some s => Ok s
  | None => Raise (KeyError "similarity_score")
  end.

(** ** The module's functions *)

Section App.

Variable env : environment.

(** [cosine_similarity(vec1, vec2)], line 44. *)
Definition cosine_similarity (vec1 vec2 : vec) : outcome float :=
  match np_dot env vec1 vec2 with
  | Raise e => Raise e
  | Ok d => Ok (fdiv d (fmul (np_linalg_norm env vec1) (np_linalg_norm env vec2)))
  end.

(** [google_search(query, api_key, engine_id, num_results)], lines 60-72. *)
Definition google_search (query api_key engine_id : string) (num_results : nat)
  : M (list search_result) :=
  result <- outbound (SearchCall query api_key engine_id num_results)
                     (cse_list env query api_key engine_id num_results) ;;
  match result with
  | Some items =>
      ret (map (fun it =>
                  {| title := match item_title it with Some t => t | None => "" end;
                     link := match item_link it with Some l => l | None => "" end;
                     snippet := match item_snippet it with Some s => s | None => "" end;
                     similarity_score := None |}) items)
  | None => ret []
  end.

Definition embedding_model : string := "text-embedding-005".

(** What the [n]-th embedding call answers on [text], after the
    [try ... except] of [get_embedding]. *)
Definition embedding_of (n : nat) (text : string) : option vec :=
  match embed_content env n embedding_model text with
  | Ok values => Some values
  | Raise _ => None
  end.

(** [get_embedding(text)], lines 77-85. *)
Definition get_embedding (text : string) : M (option vec) :=
  fun w =>
    (Ok (embedding_of (embed_calls w) text),
     (w ++ [EmbedCall embedding_model text])%list).

(** The text embedded for a result, line 108. *)
Definition result_text (result : search_result) : string :=
  title result ++ " " ++ snippet result.

(** The body of the loop of lines 106-118. *)
Definition filter_step (question_embedding : vec) (threshold : float)
    (result : search_result) (filtered_results : list search_result)
  : M (list search_result) :=
  result_embedding <- get_embedding (result_text result) ;;
  match result_embedding with
  | None => ret filtered_results
  | Some re =>
      similarity <- lift (cosine_similarity question_embedding re) ;;
      let result := set_similarity_score result similarity in
      if fge similarity threshold
      then ret (filtered_results ++ [result])%list
      else ret filtered_results
  end.

(** [filter_results_by_similarity(question, search_results, threshold)],
    lines 100-123. *)
Definition filter_results_by_similarity (question : string)
    (search_results : list search_result) (threshold : float)
  : M (list search_result) :=
  question_embedding <- get_embedding question ;;
  match question_embedding with
  | None => ret search_results
  | Some qe =>
      filtered_results <- for_each search_results (filter_step qe threshold) [] ;;
      lift (list_sort_reverse get_similarity_score filtered_results)
  end.

(** One pass of the loop of lines 139-143 over the rest of the results,
    [idx] being the index of the next one. *)
Fixpoint build_context (idx : nat) (curated_results : list search_result)
    (context : string) : outcome string :=
  match curated_results with
  | [] => Ok context
  | result :: rest =>
      match get_similarity_score result with
      | Raise e => Raise e
      | Ok score =>
          let context := context ++ (str_nat idx ++ ". " ++ title result ++ nl) in
          let context := context ++ ("   출처: " ++ link result ++ nl) in
          let context := context ++ ("   내용: " ++ snippet result ++ nl) in
          let context := context ++ ("   관련도: " ++ format_2f score ++ nl ++ nl) in
          build_context (S idx) rest context
      end
  end.

Definition preamble : string := "다음은 관련 검색 결과입니다:" ++ nl ++ nl.

Definition instruction : string :=
  "답변 시 관련 출처를 [1], [2] 형식으로 인용해주세요.".

(** The prompt of lines 138-152. *)
Definition build_prompt (question : string) (curated_results : list search_result)
  : outcome string :=
  match build_context 1 curated_results preamble with
  | Raise e => Raise e
  | Ok context =>
      Ok (context ++ nl ++ nl
            ++ "위의 검색 결과를 바탕으로 다음 질문에 답변해주세요:" ++ nl ++ nl
            ++ "질문: " ++ question ++ nl ++ nl
            ++ instruction)
  end.

Definition generation_model : string := "gemini-2.0-flash-exp".

(** [ask_gemini_with_context(question, curated_results)], lines 137-160. *)
Definition ask_gemini_with_context (question : string)
    (curated_results : list search_result) : M string :=
  prompt <- lift (build_prompt question curated_results) ;;
  outbound (GenerateCall generation_model prompt)
           (generate_content env generation_model prompt).

Definition error_body (msg : string) : body :=
  {| b_error := Some msg; b_answer := None; b_sources := None;
     b_total_found := None; b_filtered_count := None |}.

Definition missing_credentials_body : body :=
  {| b_error := Some "Google Search API 자격증명이 필요합니다. README를 참고하세요.";
     b_answer := Some "(Google Search API 없이 테스트) 질문에 대한 답변을 위해서는 Google Custom Search API 키와 검색 엔진 ID가 필요합니다.";
     b_sources := Some [];
     b_total_found := None; b_filtered_count := None |}.

(** [ask()], lines 178-226, on the parsed JSON body [data] of the request. *)
Definition ask (data : json_object) : M response :=
  try_except
    (let question := dict_get data "question" "" in
     if is_empty question then ret (error_body "질문이 필요합니다", 400)
     else if is_empty (GOOGLE_SEARCH_API_KEY env)
             || is_empty (GOOGLE_SEARCH_ENGINE_ID env)
     then ret (missing_credentials_body, 200)
     else
       search_results <- google_search question (GOOGLE_SEARCH_API_KEY env)
                           (GOOGLE_SEARCH_ENGINE_ID env) 10 ;;
       curated_results <- filter_results_by_similarity question search_results
                            lit_0_3 ;;
       answer <- ask_gemini_with_context question curated_results ;;
       ret ({| b_error := None;
               b_answer := Some answer;
               b_sources := Some curated_results;
               b_total_found := Some (List.length search_results);
               b_filtered_count := Some (List.length curated_results) |}, 200))
    (fun e => ret (error_body (str_exn e), 500)).

End App.

(** ** Notions the properties are stated with *)

(** The order and the equality of keys, on a decorated list. *)
Definition key_ge {A : Type} (p q : float * A) : Prop := fge (fst p) (fst q) = true.

Definition key_eq {A : Type} (s : float) (p : float * A) : bool := feqb (fst p) s.

(** The key of [p.2] is [p.1] and reaches [threshold]. *)
Definition decorated_above (threshold : float) (p : float * search_result) : Prop :=
  similarity_score (snd p) = Some (fst p) /\ fge (fst p) threshold = true.

(** What the filter decides for the result [r] whose text is sent in the
    [n]-th embedding call: kept with its score, or left out. It reads the
    answer to that one call only. *)
Definition verdict (env : environment) (qe : vec) (threshold : float)
    (n : nat) (r : search_result) : option search_result :=
  match embedding_of env n (result_text r) with
  | None => None
  | Some re =>
      match cosine_similarity env qe re with
      | Ok s => if fge s threshold then Some (set_similarity_score r s) else None
      | Raise _ => None
      end
  end.

(** The results with the number of the embedding call each one is sent in,
    the first being call [n0]. *)
Definition numbered (n0 : nat) (rs : list search_result) : list (nat * search_result) :=
  combine (seq n0 (List.length rs)) rs.

(** The input results whose embedding succeeds and whose similarity reaches
    the threshold, scored, in input order. *)
Definition kept (env : environment) (qe : vec) (threshold : float) (n0 : nat)
    (rs : list search_result) : list search_result :=
  flat_map (fun nr => match verdict env qe threshold (fst nr) (snd nr) with
                      | Some x => [x]
                      | None => []
                      end) (numbered n0 rs).

(** numpy accepts every pair the filter scores: no result whose embedding
    succeeds makes [cosine_similarity] raise. *)
Definition similarities_defined (env : environment) (qe : vec) (n0 : nat)
    (rs : list search_result) : Prop :=
  forall n r re, In (n, r) (numbered n0 rs) ->
    embedding_of env n (result_text r) = Some re ->
    exists s, cosine_similarity env qe re = Ok s.

(** [a] is scored at least as high as [b]. *)
Definition score_ge (a b : search_result) : Prop :=
  exists sa sb, similarity_score a = Some sa /\ similarity_score b = Some sb /\
                fge sa sb = true.

(** [r] carries a score equal to [s]. *)
Definition has_score_eq (s : float) (r : search_result) : bool :=
  match similarity_score r with
  | Some x => feqb x s
  | None => false
  end.

(** [r] carries a score that reaches [threshold]. *)
Definition scored_at_least (threshold : float) (r : search_result) : Prop :=
  exists s, similarity_score r = Some s /\ fge s threshold = true.

(** The calls of the loop: one embedding call per result, in order. *)
Definition result_calls (rs : list search_result) : list call :=
  map (fun r => EmbedCall embedding_model (result_text r)) rs.

(** The outcome of the loop of lines 106-118 as a function of the answers of
    the embedding provider, the first result being sent in call [n]. *)
Fixpoint loop_outcome (env : environment) (qe : vec) (threshold : float) (n : nat)
    (rs : list search_result) (acc : list search_result)
  : outcome (list search_result) :=
  match rs with
  | [] => Ok acc
  | r :: rest =>
      match embedding_of env n (result_text r) with
      | None => loop_outcome env qe threshold (S n) rest acc
      | Some re =>
          match cosine_similarity env qe re with
          | Raise e => Raise e
          | Ok s =>
              loop_outcome env qe threshold (S n) rest
                (if fge s threshold then (acc ++ [set_similarity_score r s])%list
                 else acc)
          end
      end
  end.

(** The environment in which the [k]-th embedding call is not made: the
    later calls get the answers they had one call later. *)
Definition skip_embedding (k : nat) (env : environment) : environment :=
  {| GOOGLE_SEARCH_API_KEY := GOOGLE_SEARCH_API_KEY env;
     GOOGLE_SEARCH_ENGINE_ID := GOOGLE_SEARCH_ENGINE_ID env;
     cse_list := cse_list env;
     embed_content := fun n => embed_content env (if (n <? k)%nat then n else S n);
     generate_content := generate_content env;
     np_dot := np_dot env;
     np_linalg_norm := np_linalg_norm env |}.

(** The lines the prompt lists for the result at 1-based index [idx]. *)
Definition listing (idx : nat) (r : search_result) (score : float) : string :=
  str_nat idx ++ ". " ++ title r ++ nl
  ++ "   출처: " ++ link r ++ nl
  ++ "   내용: " ++ snippet r ++ nl
  ++ "   관련도: " ++ format_2f score ++ nl ++ nl.

(** The listings of the results [curated], scored [scores], the first at
    index [idx]. *)
Definition listings (idx : nat) (curated : list search_result) (scores : list float)
  : string :=
  fold_right append ""
    (map (fun x => listing (fst x) (fst (snd x)) (snd (snd x)))
         (combine (seq idx (List.length curated)) (combine curated scores))).

(** What follows the listings: the question and the citation instruction. *)
Definition epilogue (question : string) : string :=
  nl ++ nl ++ "위의 검색 결과를 바탕으로 다음 질문에 답변해주세요:" ++ nl ++ nl
  ++ "질문: " ++ question ++ nl ++ nl ++ instruction.

(** The citation marker [[k]]. *)
Definition marker (k : nat) : string := "[" ++ str_nat k ++ "]".

(** The prompt built for [curated] holds the marker [[k]] exactly for the
    indices [k] of the results, 1 to the length of [curated]. *)
Definition markers_match_results (question : string) (curated : list search_result)
  : Prop :=
  forall prompt, build_prompt question curated = Ok prompt ->
    forall k, 1 <= k ->
      (occurs (marker k) prompt = true <-> k <= List.length curated).

(** ** A concrete environment *)

Module Sample.

(** An in-order dot product; numpy raises on shapes that differ. *)
Fixpoint dot_from (a b : vec) (acc : float) : outcome float :=
  match a, b with
  | [], [] => Ok acc
  | x :: a', y :: b' => dot_from a' b' (fadd acc (fmul x y))
  | _, _ => Raise (ValueError "shapes not aligned")
  end.

Definition dot (a b : vec) : outcome float := dot_from a b fzero.

Definition norm (a : vec) : float :=
  match dot a a with
  | Ok d => fsqrt d
  | Raise _ => S754_nan
  end.

Definition items : list item :=
  [ mk_item (Some "Paris") (Some "http://p") (Some "capital");
    mk_item (Some "Food") None (Some "cuisine");
    mk_item (Some "Eiffel") (Some "http://e") (Some "tower") ].

(** The question and the third result embed on one axis, the first result
    half way, the second on the other axis. *)
Definition env : environment :=
  {| GOOGLE_SEARCH_API_KEY := "key";
     GOOGLE_SEARCH_ENGINE_ID := "engine";
     cse_list := fun _ _ _ _ => Ok (Some items);
     embed_content := fun n _ _ =>
       match n with
       | 1 => Ok [fone; fone]
       | 2 => Ok [fzero; fone]
       | _ => Ok [fone; fzero]
       end;
     generate_content := fun _ _ => Ok "Paris [1]";
     np_dot := dot;
     np_linalg_norm := norm |}.

(** The same, with an embedding provider that is down. *)
Definition env_down : environment :=
  {| GOOGLE_SEARCH_API_KEY := "key";
     GOOGLE_SEARCH_ENGINE_ID := "engine";
     cse_list := fun _ _ _ _ => Ok (Some items);
     embed_content := fun _ _ _ => Raise (ProviderError "unavailable");
     generate_content := fun _ _ => Ok "Paris [1]";
     np_dot := dot;
     np_linalg_norm := norm |}.

(** The same, without the search credentials. *)
Definition env_no_key : environment :=
  {| GOOGLE_SEARCH_API_KEY := "";
     GOOGLE_SEARCH_ENGINE_ID := "engine";
     cse_list := fun _ _ _ _ => Ok (Some items);
     embed_content := fun _ _ _ => Ok [fone; fzero];
     generate_content := fun _ _ => Ok "Paris [1]";
     np_dot := dot;
     np_linalg_norm := norm |}.

(** The embedding of the second result fails. *)
Definition env_second_fails : environment :=
  {| GOOGLE_SEARCH_API_KEY := "key";
     GOOGLE_SEARCH_ENGINE_ID := "engine";
     cse_list := fun _ _ _ _ => Ok (Some items);
     embed_content := fun n _ _ =>
       match n with
       | 1 => Ok [fone; fone]
       | 2 => Raise (ProviderError "quota")
       | _ => Ok [fone; fzero]
       end;
     generate_content := fun _ _ => Ok "Paris [1]";
     np_dot := dot;
     np_linalg_norm := norm |}.

Definition question : string := "What is the capital of France?".

Definition data : json_object := [("question", question)].

Definition results : list search_result :=
  [ mk_result "Paris" "http://p" "capital" None;
    mk_result "Food" "" "cuisine" None;
    mk_result "Eiffel" "http://e" "tower" None ].

(** The three results, scored 0.90, 0.80 and 0.50. *)
Definition curated : list search_result :=
  [ mk_result "Paris" "http://p" "capital"
      (Some (S754_finite false 8106479329266893 (-53)));
    mk_result "Eiffel" "http://e" "tower"
      (Some (S754_finite false 7205759403792794 (-53)));
    mk_result "Food" "" "cuisine" (Some (S754_finite false 4503599627370496 (-53))) ].

End Sample.

(** ** Notions for the further properties *)

(** The dict [google_search] builds from an item, lines 66-70. *)
Definition item_result (it : item) : search_result :=
  {| title := match item_title it with Some t => t | None => "" end;
     link := match item_link it with Some l => l | None => "" end;
     snippet := match item_snippet it with Some s => s | None => "" end;
     similarity_score := None |}.

(** The results in the answer of the search provider. *)
Definition found (answer : option (list item)) : list search_result :=
  match answer with
  | Some items => map item_result items
  | None => []
  end.

Definition is_nan (x : float) : bool :=
  match x with
  | S754_nan => true
  | _ => false
  end.

(** [o] has the title, the link and the snippet of [r]. *)
Definition same_text (o r : search_result) : Prop :=
  title o = title r /\ link o = link r /\ snippet o = snippet r.

(** [r] without its score. *)
Definition clear_score (r : search_result) : search_result :=
  {| title := title r; link := link r; snippet := snippet r;
     similarity_score := None |}.

(** [r] carries a score that is [>= threshold]. *)
Definition reaches (threshold : float) (r : search_result) : bool :=
  match similarity_score r with
  | Some s => fge s threshold
  | None => false
  end.

(** The body of a full answer. *)
Definition answer_body (answer : string) (sources : list search_result)
    (total : nat) : body :=
  {| b_error := None; b_answer := Some answer; b_sources := Some sources;
     b_total_found := Some total;
     b_filtered_count := Some (List.length sources) |}.

(** ** Further environments *)

Module Cases.

(** The search provider is down. *)
Definition env_search_down : environment :=
  {| GOOGLE_SEARCH_API_KEY := "key";
     GOOGLE_SEARCH_ENGINE_ID := "engine";
     cse_list := fun _ _ _ _ => Raise (ProviderError "HttpError 403");
     embed_content := fun _ _ _ => Ok [fone; fzero];
     generate_content := fun _ _ => Ok "Paris [1]";
     np_dot := Sample.dot;
     np_linalg_norm := Sample.norm |}.

(** The search finds nothing: the answer has no items key. *)
Definition env_no_items : environment :=
  {| GOOGLE_SEARCH_API_KEY := "key";
     GOOGLE_SEARCH_ENGINE_ID := "engine";
     cse_list := fun _ _ _ _ => Ok None;
     embed_content := fun _ _ _ => Ok [fone; fzero];
     generate_content := fun _ _ => Ok "I do not know.";
     np_dot := Sample.dot;
     np_linalg_norm := Sample.norm |}.

(** The generation provider is down. *)
Definition env_generation_down : environment :=
  {| GOOGLE_SEARCH_API_KEY := "key";
     GOOGLE_SEARCH_ENGINE_ID := "engine";
     cse_list := fun _ _ _ _ => Ok (Some Sample.items);
     embed_content := embed_content Sample.env;
     generate_content := fun _ _ => Raise (ProviderError "quota exceeded");
     np_dot := Sample.dot;
     np_linalg_norm := Sample.norm |}.

(** The second result embeds in another dimension, so numpy raises. *)
Definition env_shape_error : environment :=
  {| GOOGLE_SEARCH_API_KEY := "key";
     GOOGLE_SEARCH_ENGINE_ID := "engine";
     cse_list := fun _ _ _ _ => Ok (Some Sample.items);
     embed_content := fun n _ _ =>
       match n with
       | 2 => Ok [fone]
       | _ => Ok [fone; fzero]
       end;
     generate_content := fun _ _ => Ok "Paris [1]";
     np_dot := Sample.dot;
     np_linalg_norm := Sample.norm |}.

(** The second result embeds as the zero vector. *)
Definition env_zero_vector : environment :=
  {| GOOGLE_SEARCH_API_KEY := "key";
     GOOGLE_SEARCH_ENGINE_ID := "engine";
     cse_list := fun _ _ _ _ => Ok (Some Sample.items);
     embed_content := fun n _ _ =>
       match n with
       | 2 => Ok [fzero; fzero]
       | _ => Ok [fone; fzero]
       end;
     generate_content := fun _ _ => Ok "Paris [1]";
     np_dot := Sample.dot;
     np_linalg_norm := Sample.norm |}.

(** The question embeds, and every later embedding call fails. *)
Definition env_results_fail : environment :=
  {| GOOGLE_SEARCH_API_KEY := "key";
     GOOGLE_SEARCH_ENGINE_ID := "engine";
     cse_list := fun _ _ _ _ => Ok (Some Sample.items);
     embed_content := fun n _ _ =>
       match n with
       | 0 => Ok [fone; fzero]
       | _ => Raise (ProviderError "quota")
       end;
     generate_content := fun _ _ => Ok "I do not know.";
     np_dot := Sample.dot;
     np_linalg_norm := Sample.norm |}.

(** The literal [0.5]. *)
Definition lit_0_5 : float := S754_finite false 4503599627370496 (-53).

End Cases.

(** ** The similarity read as exact arithmetic *)

Definition fopp : float -> float := SFopp.

Definition fminus_one : float := fopp fone.

Definition is_zero (x : float) : bool :=
  match x with
  | S754_zero _ => true
  | _ => false
  end.

(** The vector [-v]. *)
Definition negated (v : vec) : vec := map fopp v.

(** The similarity of two vectors of one length and non-zero norms lies in
    [-1, 1]. *)
Definition similarity_in_range (env : environment) : Prop :=
  forall a b c,
    List.length a = List.length b ->
    is_zero (np_linalg_norm env a) = false ->
    is_zero (np_linalg_norm env b) = false ->
    cosine_similarity env a b = Ok c ->
    fge c fminus_one = true /\ fge fone c = true.

(** [cosine_similarity(v, v) == 1.0] for every vector of non-zero norm. *)
Definition similarity_self_is_one (env : environment) : Prop :=
  forall v c,
    is_zero (np_linalg_norm env v) = false ->
    cosine_similarity env v v = Ok c ->
    feqb c fone = true.

(** [cosine_similarity(v, -v) == -1.0] for every vector of non-zero norm. *)
Definition similarity_negated_is_minus_one (env : environment) : Prop :=
  forall v c,
    is_zero (np_linalg_norm env v) = false ->
    cosine_similarity env v (negated v) = Ok c ->
    feqb c fminus_one = true.

(** [cosine_similarity(a, b) == cosine_similarity(b, a)]. *)
Definition similarity_symmetric (env : environment) : Prop :=
  forall a b,
    List.length a = List.length b ->
    cosine_similarity env a b = cosine_similarity env b a.

(** The four together: the similarity as an exact cosine. *)
Definition exact_similarity (env : environment) : Prop :=
  similarity_in_range env /\ similarity_self_is_one env /\
  similarity_negated_is_minus_one env /\ similarity_symmetric env.

(** ** Comparisons of binary64 floats *)

Lemma SFcompare_antisym (a b : float) :
  SFcompare b a = option_map CompOpp (SFcompare a b).
Proof.
  destruct a as [sa|sa| |sa ma ea], b as [sb|sb| |sb mb eb]; simpl;
    try (destruct sa); try (destruct sb); try reflexivity;
    change (Pos.compare_cont Eq mb ma) with (Pos.compare mb ma);
    change (Pos.compare_cont Eq ma mb) with (Pos.compare ma mb);
    rewrite (Z.compare_antisym ea eb), (Pos.compare_antisym ma mb);
    destruct (ea ?= eb)%Z; simpl; try reflexivity;
    destruct (ma ?= mb)%positive; reflexivity.
Qed.

Lemma SFcompare_Eq_left (a s b : float) :
  SFcompare a s = Some Eq -> SFcompare a b = SFcompare s b.
Proof.
  destruct a as [sa|sa| |sa ma ea], s as [ss|ss| |ss ms es]; simpl;
    try (destruct sa); try (destruct ss); try discriminate; try reflexivity;
    intros H.
  all: try (destruct b as [sb|sb| |sb mb eb]; reflexivity).
  all: destruct (ea ?= es)%Z eqn:He; try discriminate;
    apply Z.compare_eq in He; subst es;
    change (Pos.compare_cont Eq ma ms) with (Pos.compare ma ms) in H;
    destruct (ma ?= ms)%positive eqn:Hm; try discriminate;
    apply Pos.compare_eq in Hm; subst ms; reflexivity.
Qed.

(** Above a common bound no NaN occurs, and [<] is total. *)
Lemma fge_total (t a b : float) :
  fge a t = true -> fge b t = true -> flt a b = false -> fge a b = true.
Proof.
  unfold fge, flt, SFleb, SFltb. intros Ha Hb.
  rewrite (SFcompare_antisym a b).
  destruct (SFcompare a b) as [[ | | ]|] eqn:Hab; simpl;
    try reflexivity; try discriminate.
  destruct t, a, b; simpl in *; discriminate.
Qed.

(** Two floats equal to a third are not ordered by [<]. *)
Lemma feqb_not_lt (s a b : float) :
  feqb a s = true -> feqb b s = true -> flt a b = false.
Proof.
  unfold feqb, flt, SFeqb, SFltb. intros Ha Hb.
  destruct (SFcompare a s) as [[ | | ]|] eqn:Has; try discriminate.
  destruct (SFcompare b s) as [[ | | ]|] eqn:Hbs; try discriminate.
  rewrite (SFcompare_Eq_left _ _ b Has), (SFcompare_antisym b s), Hbs.
  reflexivity.
Qed.

(** ** The sort *)

Section Sort.

Context {A : Type}.

Lemma insert_reverse_perm (k : float) (x : A) (l : list (float * A)) :
  Permutation (insert_reverse k x l) ((k, x) :: l).
Proof.
  induction l as [|[k' y] l IH]; simpl.
  - apply Permutation_refl.
  - destruct (flt k k').
    + eapply perm_trans; [apply perm_skip, IH | apply perm_swap].
    + apply Permutation_refl.
Qed.

Lemma sort_reverse_perm (l : list (float * A)) : Permutation (sort_reverse l) l.
Proof.
  induction l as [|[k x] l IH]; simpl.
  - apply perm_nil.
  - eapply perm_trans; [apply insert_reverse_perm | apply perm_skip, IH].
Qed.

Lemma insert_reverse_sorted (t k : float) (x : A) (l : list (float * A)) :
  fge k t = true ->
  Forall (fun p => fge (fst p) t = true) l ->
  Sorted key_ge l ->
  Sorted key_ge (insert_reverse k x l).
Proof.
  intros Hk Hall Hs. induction l as [|[k' y] l IH]; simpl.
  - repeat constructor.
  - inversion Hall as [|? ? Hk' Hall']; subst.
    inversion Hs as [|? ? Hs' Hd]; subst.
    destruct (flt k k') eqn:Hlt.
    + constructor; [exact (IH Hall' Hs')|].
      destruct l as [|[k'' z] l']; simpl.
      * constructor. unfold key_ge; simpl.
        unfold fge, flt, SFleb, SFltb in *.
        destruct (SFcompare k k') as [[ | | ]|]; try discriminate; reflexivity.
      * destruct (flt k k'').
        -- inversion Hd; subst. constructor. assumption.
        -- constructor. unfold key_ge; simpl.
           unfold fge, flt, SFleb, SFltb in *.
           destruct (SFcompare k k') as [[ | | ]|]; try discriminate; reflexivity.
    + constructor; [exact Hs|].
      constructor. unfold key_ge; simpl.
      exact (fge_total t k k' Hk Hk' Hlt).
Qed.

Lemma sort_reverse_sorted (t : float) (l : list (float * A)) :
  Forall (fun p => fge (fst p) t = true) l ->
  Sorted key_ge (sort_reverse l).
Proof.
  induction l as [|[k x] l IH]; simpl; intros Hall.
  - constructor.
  - inversion Hall as [|? ? Hk Hall']; subst.
    apply (insert_reverse_sorted t); [exact Hk| |exact (IH Hall')].
    eapply Permutation_Forall; [|exact Hall'].
    apply Permutation_sym, sort_reverse_perm.
Qed.

Lemma insert_reverse_stable (s k : float) (x : A) (l : list (float * A)) :
  filter (key_eq s) (insert_reverse k x l) = filter (key_eq s) ((k, x) :: l).
Proof.
  induction l as [|[k' y] l IH]; [reflexivity|].
  cbn [insert_reverse]. destruct (flt k k') eqn:Hlt; [|reflexivity].
  cbn [filter] in *. rewrite IH.
  assert (Hk'y : key_eq s (k', y) = feqb k' s) by reflexivity.
  assert (Hkx : key_eq s (k, x) = feqb k s) by reflexivity.
  rewrite Hk'y, Hkx.
  destruct (feqb k' s) eqn:Hk'; destruct (feqb k s) eqn:Hk; try reflexivity.
  rewrite (feqb_not_lt s k k' Hk Hk') in Hlt. discriminate.
Qed.

Lemma sort_reverse_stable (s : float) (l : list (float * A)) :
  filter (key_eq s) (sort_reverse l) = filter (key_eq s) l.
Proof.
  induction l as [|[k x] l IH]; [reflexivity|].
  cbn [sort_reverse]. rewrite insert_reverse_stable.
  cbn [filter]. rewrite IH. reflexivity.
Qed.

End Sort.

(** The sort on scored results. *)

Lemma decorate_scored (threshold : float) (l : list search_result) :
  Forall (scored_at_least threshold) l ->
  exists d, decorate get_similarity_score l = Ok d /\ map snd d = l /\
            Forall (decorated_above threshold) d.
Proof.
  induction l as [|r l IH]; intros Hall.
  - exists []. repeat split; constructor.
  - inversion Hall as [|? ? [s [Hs Hge]] Hall']; subst.
    destruct (IH Hall') as [d [Hd [Hmap Hdec]]].
    exists ((s, r) :: d). cbn [decorate]. unfold get_similarity_score at 1.
    rewrite Hs, Hd. repeat split.
    + cbn [map snd]. rewrite Hmap. reflexivity.
    + constructor; [split; assumption | exact Hdec].
Qed.

Lemma sorted_undecorate (threshold : float) (d : list (float * search_result)) :
  Forall (decorated_above threshold) d ->
  Sorted key_ge d -> Sorted score_ge (map snd d).
Proof.
  intros Hdec Hs. induction Hs as [|p d Hs IH Hd]; cbn [map].
  - constructor.
  - inversion Hdec as [|? ? [Hp _] Hdec']; subst.
    constructor; [exact (IH Hdec')|].
    destruct Hd as [|q d' Hpq]; cbn [map]; constructor.
    inversion Hdec' as [|? ? [Hq _] _]; subst.
    exists (fst p), (fst q). repeat split; assumption.
Qed.

Lemma filter_undecorate (threshold s : float) (d : list (float * search_result)) :
  Forall (decorated_above threshold) d ->
  filter (has_score_eq s) (map snd d) = map snd (filter (key_eq s) d).
Proof.
  induction 1 as [|p d [Hp _] _ IH]; [reflexivity|].
  cbn [map filter]. unfold has_score_eq at 1. rewrite Hp.
  unfold key_eq at 1. destruct (feqb (fst p) s); cbn [map]; rewrite IH; reflexivity.
Qed.

Lemma list_sort_reverse_scored (threshold : float) (l : list search_result) :
  Forall (scored_at_least threshold) l ->
  exists out, list_sort_reverse get_similarity_score l = Ok out /\
    Permutation out l /\ Sorted score_ge out /\
    (forall s, filter (has_score_eq s) out = filter (has_score_eq s) l).
Proof.
  intros Hall. destruct (decorate_scored threshold l Hall) as [d [Hd [Hmap Hdec]]].
  assert (Hdec' : Forall (decorated_above threshold) (sort_reverse d)).
  { eapply Permutation_Forall; [|exact Hdec].
    apply Permutation_sym, sort_reverse_perm. }
  exists (map snd (sort_reverse d)). unfold list_sort_reverse. rewrite Hd.
  split; [reflexivity|]. split; [|split].
  - rewrite <- Hmap. apply Permutation_map, sort_reverse_perm.
  - apply (sorted_undecorate threshold); [exact Hdec'|].
    apply (sort_reverse_sorted threshold).
    eapply Forall_impl; [|exact Hdec]. intros p [_ Hp]. exact Hp.
  - intros s. rewrite (filter_undecorate threshold s _ Hdec').
    rewrite sort_reverse_stable, <- (filter_undecorate threshold s _ Hdec), Hmap.
    reflexivity.
Qed.

(** ** The loop of the filter *)

Lemma embed_calls_embed (w : world) (model contents : string) :
  embed_calls (w ++ [EmbedCall model contents])%list = S (embed_calls w).
Proof.
  unfold embed_calls. rewrite filter_app, length_app. simpl. lia.
Qed.

Lemma embed_calls_search (w : world) (q k cx : string) (num : nat) :
  embed_calls (w ++ [SearchCall q k cx num])%list = embed_calls w.
Proof.
  unfold embed_calls. rewrite filter_app, length_app. simpl. lia.
Qed.

(** The loop computes [loop_outcome] of the answers it gets. *)
Lemma for_each_filter_step (env : environment) (qe : vec) (threshold : float)
    (rs : list search_result) :
  forall acc w,
    fst (for_each rs (filter_step env qe threshold) acc w)
    = loop_outcome env qe threshold (embed_calls w) rs acc.
Proof.
  induction rs as [|r rs IH]; intros acc w; [reflexivity|].
  cbn [for_each loop_outcome]. unfold bind at 1. unfold filter_step at 1.
  unfold bind at 1. unfold get_embedding at 1.
  destruct (embedding_of env (embed_calls w) (result_text r)) as [re|].
  - unfold bind, lift.
    destruct (cosine_similarity env qe re) as [s|e]; [|reflexivity].
    destruct (fge s threshold); unfold ret; rewrite IH, embed_calls_embed;
      reflexivity.
  - unfold ret. rewrite IH, embed_calls_embed. reflexivity.
Qed.

(** A loop that ends has made one embedding call per result. *)
Lemma for_each_filter_step_calls (env : environment) (qe : vec) (threshold : float)
    (rs : list search_result) :
  forall acc w out w',
    for_each rs (filter_step env qe threshold) acc w = (Ok out, w') ->
    w' = (w ++ result_calls rs)%list.
Proof.
  induction rs as [|r rs IH]; intros acc w out w'.
  - cbn. unfold ret. intros H. inversion H. rewrite app_nil_r. reflexivity.
  - cbn [for_each result_calls map]. unfold bind at 1. unfold filter_step at 1.
    unfold bind at 1. unfold get_embedding at 1.
    destruct (embedding_of env (embed_calls w) (result_text r)) as [re|].
    + unfold bind, lift.
      destruct (cosine_similarity env qe re) as [s|e]; [|discriminate].
      destruct (fge s threshold); unfold ret; intros H; apply IH in H;
        rewrite H, <- app_assoc; reflexivity.
    + unfold ret. intros H. apply IH in H. rewrite H, <- app_assoc. reflexivity.
Qed.

Lemma kept_cons (env : environment) (qe : vec) (threshold : float) (n : nat)
    (r : search_result) (rs : list search_result) :
  kept env qe threshold n (r :: rs)
  = (match verdict env qe threshold n r with Some x => [x] | None => [] end
     ++ kept env qe threshold (S n) rs)%list.
Proof. reflexivity. Qed.

Lemma similarities_defined_cons (env : environment) (qe : vec) (n : nat)
    (r : search_result) (rs : list search_result) :
  similarities_defined env qe n (r :: rs) ->
  (forall re, embedding_of env n (result_text r) = Some re ->
              exists s, cosine_similarity env qe re = Ok s) /\
  similarities_defined env qe (S n) rs.
Proof.
  intros H. split.
  - intros re Hre. apply (H n r re); [left; reflexivity | exact Hre].
  - intros m x re Hin Hre. apply (H m x re); [right; exact Hin | exact Hre].
Qed.

(** When numpy accepts every pair, the loop ends with the kept results
    appended to the accumulator. *)
Lemma loop_outcome_kept (env : environment) (qe : vec) (threshold : float)
    (rs : list search_result) :
  forall n acc,
    similarities_defined env qe n rs ->
    loop_outcome env qe threshold n rs acc
    = Ok (acc ++ kept env qe threshold n rs)%list.
Proof.
  induction rs as [|r rs IH]; intros n acc Hdef.
  - cbn. rewrite app_nil_r. reflexivity.
  - apply similarities_defined_cons in Hdef. destruct Hdef as [Hhd Htl].
    rewrite kept_cons. cbn [loop_outcome]. unfold verdict.
    destruct (embedding_of env n (result_text r)) as [re|].
    + destruct (Hhd re eq_refl) as [s Hs]. rewrite Hs.
      destruct (fge s threshold); rewrite (IH _ _ Htl).
      * rewrite <- app_assoc. reflexivity.
      * reflexivity.
    + rewrite (IH _ _ Htl). reflexivity.
Qed.

(** Whatever the providers answer, a loop that ends has only appended
    results scored at or above the threshold, at most one per input. *)
Lemma loop_outcome_scored (env : environment) (qe : vec) (threshold : float)
    (rs : list search_result) :
  forall n acc out,
    loop_outcome env qe threshold n rs acc = Ok out ->
    Forall (scored_at_least threshold) acc ->
    Forall (scored_at_least threshold) out /\
    List.length out <= List.length acc + List.length rs.
Proof.
  induction rs as [|r rs IH]; intros n acc out Hrun Hacc.
  - cbn in Hrun. inversion Hrun; subst. split; [exact Hacc | lia].
  - cbn [loop_outcome] in Hrun. cbn [List.length].
    destruct (embedding_of env n (result_text r)) as [re|].
    + destruct (cosine_similarity env qe re) as [s|e]; [|discriminate].
      destruct (fge s threshold) eqn:Hge.
      * apply IH in Hrun.
        -- destruct Hrun as [Hout Hlen]. split; [exact Hout|].
           rewrite length_app in Hlen. simpl in Hlen. lia.
        -- apply Forall_app. split; [exact Hacc|].
           constructor; [|constructor]. exists s. split; [reflexivity|exact Hge].
      * apply IH in Hrun; [|exact Hacc]. destruct Hrun. split; [assumption|lia].
    + apply IH in Hrun; [|exact Hacc]. destruct Hrun. split; [assumption|lia].
Qed.

Lemma kept_scored (env : environment) (qe : vec) (threshold : float)
    (rs : list search_result) :
  forall n, Forall (scored_at_least threshold) (kept env qe threshold n rs).
Proof.
  induction rs as [|r rs IH]; intros n.
  - constructor.
  - rewrite kept_cons. apply Forall_app. split; [|apply IH].
    unfold verdict. destruct (embedding_of env n (result_text r)) as [re|];
      [|constructor].
    destruct (cosine_similarity env qe re) as [s|e]; [|constructor].
    destruct (fge s threshold) eqn:Hge; constructor; [|constructor].
    exists s. split; [reflexivity|exact Hge].
Qed.

(** After the skipped call, the environment answers as the original one
    does one call later. *)
Lemma loop_outcome_skipped (env : environment) (qe : vec) (threshold : float)
    (k : nat) (rs : list search_result) :
  forall n acc, k <= n ->
    loop_outcome (skip_embedding k env) qe threshold n rs acc
    = loop_outcome env qe threshold (S n) rs acc.
Proof.
  induction rs as [|r rs IH]; intros n acc Hkn; [reflexivity|].
  cbn [loop_outcome].
  assert (He : embedding_of (skip_embedding k env) n (result_text r)
               = embedding_of env (S n) (result_text r)).
  { unfold embedding_of. cbn [skip_embedding embed_content].
    destruct (Nat.ltb_spec n k); [lia | reflexivity]. }
  rewrite He. destruct (embedding_of env (S n) (result_text r)) as [re|].
  - change (cosine_similarity (skip_embedding k env) qe re)
      with (cosine_similarity env qe re).
    destruct (cosine_similarity env qe re) as [s|e]; [|reflexivity].
    apply IH. lia.
  - apply IH. lia.
Qed.

(** A result whose embedding fails leaves the loop as if it were not in
    the list. *)
Lemma loop_outcome_skip (env : environment) (qe : vec) (threshold : float)
    (r : search_result) (rs2 rs1 : list search_result) :
  forall n acc,
    embedding_of env (n + List.length rs1) (result_text r) = None ->
    loop_outcome env qe threshold n (rs1 ++ r :: rs2)%list acc
    = loop_outcome (skip_embedding (n + List.length rs1) env) qe threshold n
        (rs1 ++ rs2)%list acc.
Proof.
  induction rs1 as [|x rs1 IH]; intros n acc Hfail.
  - cbn [List.length List.app] in *. rewrite Nat.add_0_r in *.
    cbn [loop_outcome]. rewrite Hfail.
    symmetry. apply loop_outcome_skipped. lia.
  - cbn [List.length List.app] in *.
    replace (n + S (List.length rs1)) with (S n + List.length rs1) in * by lia.
    cbn [loop_outcome].
    assert (He : embedding_of (skip_embedding (S n + List.length rs1) env) n
                   (result_text x)
                 = embedding_of env n (result_text x)).
    { unfold embedding_of. cbn [skip_embedding embed_content].
      destruct (Nat.ltb_spec n (S n + List.length rs1)); [reflexivity | lia]. }
    rewrite He. destruct (embedding_of env n (result_text x)) as [re|].
    + change (cosine_similarity (skip_embedding (S n + List.length rs1) env) qe re)
        with (cosine_similarity env qe re).
      destruct (cosine_similarity env qe re) as [s|e]; [|reflexivity].
      apply IH. exact Hfail.
    + apply IH. exact Hfail.
Qed.

Lemma SFleb_trans (a b c : float) :
  SFleb a b = true -> SFleb b c = true -> SFleb a c = true.
Proof.
  unfold SFleb.
  destruct a as [sa|sa| |sa ma ea], b as [sb|sb| |sb mb eb], c as [sc|sc| |sc mc ec];
    simpl; try (destruct sa); try (destruct sb); try (destruct sc);
    try reflexivity; try discriminate; try (intros; assumption).
  all: change (Pos.compare_cont Eq ma mb) with (Pos.compare ma mb);
       change (Pos.compare_cont Eq mb mc) with (Pos.compare mb mc);
       change (Pos.compare_cont Eq ma mc) with (Pos.compare ma mc);
       destruct (Z.compare_spec ea eb), (Z.compare_spec eb ec), (Z.compare_spec ea ec);
       try lia; try reflexivity; try discriminate; subst;
       destruct (Pos.compare_spec ma mb), (Pos.compare_spec mb mc),
         (Pos.compare_spec ma mc);
       simpl; try lia; try reflexivity; try discriminate.
Qed.

Lemma score_ge_trans (a b c : search_result) :
  score_ge a b -> score_ge b c -> score_ge a c.
Proof.
  intros [sa [sb [Ha [Hb Hab]]]] [sb' [sc [Hb' [Hc Hbc]]]].
  rewrite Hb in Hb'. inversion Hb'; subst sb'.
  exists sa, sc. repeat split; try assumption.
  unfold fge in *. exact (SFleb_trans sc sb sa Hbc Hab).
Qed.

(** ** The filter *)

(** The run of the filter when the question embeds. *)
Lemma filter_results_by_similarity_run (env : environment) (question : string)
    (rs : list search_result) (threshold : float) (w : world) (qe : vec) :
  embedding_of env (embed_calls w) question = Some qe ->
  fst (filter_results_by_similarity env question rs threshold w)
  = match loop_outcome env qe threshold (S (embed_calls w)) rs [] with
    | Ok filtered => list_sort_reverse get_similarity_score filtered
    | Raise e => Raise e
    end.
Proof.
  intros Hq. unfold filter_results_by_similarity, bind at 1.
  unfold get_embedding at 1. rewrite Hq. unfold bind, lift.
  pose proof (for_each_filter_step env qe threshold rs []
                (w ++ [EmbedCall embedding_model question])%list) as Hloop.
  rewrite embed_calls_embed in Hloop.
  destruct (for_each rs (filter_step env qe threshold) []
              (w ++ [EmbedCall embedding_model question])%list) as [[filtered|e] w1];
    cbn [fst] in Hloop; rewrite <- Hloop; reflexivity.
Qed.

(** C1: when the question embeds and numpy accepts every pair it is given,
    the filter returns, after one embedding call for the question and one
    per result, a list that holds exactly the kept results (the inputs whose
    embedding succeeds and whose similarity reaches the threshold, each with
    its score), sorted by descending score, results of equal score in their
    input order; every one of them is scored at or above the threshold. *)
Theorem filter_results_by_similarity_correct (env : environment)
    (question : string) (rs : list search_result) (threshold : float)
    (w : world) (qe : vec) :
  embedding_of env (embed_calls w) question = Some qe ->
  similarities_defined env qe (S (embed_calls w)) rs ->
  exists out,
    filter_results_by_similarity env question rs threshold w
    = (Ok out, (w ++ EmbedCall embedding_model question :: result_calls rs)%list) /\
    Permutation out (kept env qe threshold (S (embed_calls w)) rs) /\
    StronglySorted score_ge out /\
    (forall s, filter (has_score_eq s) out
               = filter (has_score_eq s) (kept env qe threshold (S (embed_calls w)) rs)) /\
    Forall (scored_at_least threshold) out.
Proof.
  intros Hq Hdef.
  pose proof (kept_scored env qe threshold rs (S (embed_calls w))) as Hkept.
  destruct (list_sort_reverse_scored threshold _ Hkept)
    as [out [Hsort [Hperm [Hsorted Hstable]]]].
  exists out.
  pose proof (for_each_filter_step env qe threshold rs []
                (w ++ [EmbedCall embedding_model question])%list) as Hloop.
  rewrite embed_calls_embed, (loop_outcome_kept _ _ _ _ _ _ Hdef) in Hloop.
  cbn [List.app] in Hloop.
  split; [|split; [exact Hperm|split; [|split; [exact Hstable|]]]].
  - unfold filter_results_by_similarity, bind at 1. unfold get_embedding at 1.
    rewrite Hq. unfold bind, lift.
    destruct (for_each rs (filter_step env qe threshold) []
                (w ++ [EmbedCall embedding_model question])%list)
      as [[filtered|e] w1] eqn:Hrun; cbn [fst] in Hloop; [|discriminate].
    inversion Hloop; subst filtered.
    apply for_each_filter_step_calls in Hrun. subst w1.
    rewrite Hsort, <- app_assoc. reflexivity.
  - apply Sorted_StronglySorted; [|exact Hsorted].
    intros a b c. apply score_ge_trans.
  - eapply Permutation_Forall; [apply Permutation_sym; exact Hperm | exact Hkept].
Qed.

(** C3: when the embedding of the question fails, the filter makes that one
    call and returns the list it was given: no result dropped, reordered or
    given a score. *)
Theorem filter_question_embedding_fails (env : environment) (question : string)
    (rs : list search_result) (threshold : float) (w : world) :
  embedding_of env (embed_calls w) question = None ->
  filter_results_by_similarity env question rs threshold w
  = (Ok rs, (w ++ [EmbedCall embedding_model question])%list).
Proof.
  intros Hq. unfold filter_results_by_similarity, bind, get_embedding.
  rewrite Hq. reflexivity.
Qed.

(** C5: when the question embeds and the embedding of one result fails, the
    filter returns what it returns on the list without that result, the
    provider answering every other call as before: the failure removes that
    result and changes nothing for the others. *)
Theorem filter_result_embedding_fails (env : environment) (question : string)
    (rs1 : list search_result) (r : search_result) (rs2 : list search_result)
    (threshold : float) (w : world) (qe : vec) :
  embedding_of env (embed_calls w) question = Some qe ->
  embedding_of env (S (embed_calls w) + List.length rs1) (result_text r) = None ->
  fst (filter_results_by_similarity env question (rs1 ++ r :: rs2)%list threshold w)
  = fst (filter_results_by_similarity
           (skip_embedding (S (embed_calls w) + List.length rs1) env)
           question (rs1 ++ rs2)%list threshold w).
Proof.
  intros Hq Hfail.
  rewrite (filter_results_by_similarity_run env _ _ _ _ qe Hq).
  rewrite (filter_results_by_similarity_run (skip_embedding _ env) _ _ _ _ qe).
  - rewrite (loop_outcome_skip env qe threshold r rs2 rs1 _ _ Hfail). reflexivity.
  - unfold embedding_of. cbn [skip_embedding embed_content].
    destruct (Nat.ltb_spec (embed_calls w) (S (embed_calls w) + List.length rs1));
      [exact Hq | lia].
Qed.

(** C10: on an empty list the filter returns the empty list, and the one
    embedding call it makes is the call for the question. *)
Theorem filter_empty_results (env : environment) (question : string)
    (threshold : float) (w : world) :
  filter_results_by_similarity env question [] threshold w
  = (Ok [], (w ++ [EmbedCall embedding_model question])%list).
Proof.
  unfold filter_results_by_similarity, bind, get_embedding.
  destruct (embedding_of env (embed_calls w) question); reflexivity.
Qed.

(** ** The answer composer *)

Lemma append_assoc (a b c : string) : (a ++ b) ++ c = a ++ (b ++ c).
Proof.
  induction a as [|ch a IH]; [reflexivity|].
  cbn [append]. rewrite IH. reflexivity.
Qed.

Lemma append_empty_r (a : string) : a ++ "" = a.
Proof.
  induction a as [|ch a IH]; [reflexivity|].
  cbn [append]. rewrite IH. reflexivity.
Qed.

(** The loop appends to the context one listing per result, numbered from
    [idx] on. *)
Lemma build_context_listings (curated : list search_result) :
  forall scores idx context,
    map similarity_score curated = map Some scores ->
    build_context idx curated context
    = Ok (context ++ listings idx curated scores).
Proof.
  induction curated as [|r curated IH]; intros scores idx context Hscores.
  - cbn. rewrite append_empty_r. reflexivity.
  - destruct scores as [|s scores]; [discriminate|].
    cbn [map] in Hscores. inversion Hscores as [[Hr Hrest]].
    cbn [build_context]. unfold get_similarity_score. rewrite Hr.
    cbv zeta. rewrite (IH scores _ _ Hrest). f_equal.
    unfold listings. cbn [List.length seq combine map fold_right fst snd].
    unfold listing. rewrite !append_assoc. reflexivity.
Qed.

(** A context is only built from results that all carry a score. *)
Lemma build_context_scored (curated : list search_result) :
  forall idx context out,
    build_context idx curated context = Ok out ->
    Forall (fun r => similarity_score r <> None) curated.
Proof.
  induction curated as [|r curated IH]; intros idx context out Hrun.
  - constructor.
  - cbn [build_context] in Hrun. unfold get_similarity_score in Hrun.
    destruct (similarity_score r) as [s|] eqn:Hs; [|discriminate].
    constructor; [rewrite Hs; discriminate|]. exact (IH _ _ _ Hrun).
Qed.

(** C6, as amended: for results that carry the scores [scores], the prompt
    is the preamble, then one listing per result in order (its 1-based
    index, title, link, snippet and score with two decimals), then the
    question and the fixed citation instruction; the composer sends this
    prompt in its one generation call and returns the answer to it. *)
Theorem build_prompt_listings (env : environment) (question : string)
    (curated : list search_result) (scores : list float) (w : world) :
  map similarity_score curated = map Some scores ->
  build_prompt question curated
  = Ok (preamble ++ listings 1 curated scores ++ epilogue question) /\
  ask_gemini_with_context env question curated w
  = (generate_content env generation_model
       (preamble ++ listings 1 curated scores ++ epilogue question),
     (w ++ [GenerateCall generation_model
              (preamble ++ listings 1 curated scores ++ epilogue question)])%list).
Proof.
  intros Hscores.
  assert (Hp : build_prompt question curated
               = Ok (preamble ++ listings 1 curated scores ++ epilogue question)).
  { unfold build_prompt. rewrite (build_context_listings _ scores _ _ Hscores).
    unfold epilogue. rewrite !append_assoc. reflexivity. }
  split; [exact Hp|].
  unfold ask_gemini_with_context, bind, lift. rewrite Hp. reflexivity.
Qed.

(** C6 as stated fails: the prompt for three results holds no marker [[3]],
    so the markers are not one per result. *)
Lemma build_prompt_markers_counterexample :
  ~ markers_match_results Sample.question Sample.curated.
Proof.
  intros H.
  destruct (build_prompt Sample.question Sample.curated) as [prompt|e] eqn:Hp;
    [|vm_compute in Hp; discriminate].
  destruct (H prompt Hp 3 ltac:(lia)) as [_ Hocc].
  specialize (Hocc (le_n 3)).
  vm_compute in Hp. inversion Hp; subst prompt.
  vm_compute in Hocc. discriminate.
Qed.

(** ** The orchestrator *)

(** What the filter can return. *)
Lemma filter_results_by_similarity_returns (env : environment) (question : string)
    (rs : list search_result) (threshold : float) (w w' : world)
    (out : list search_result) :
  filter_results_by_similarity env question rs threshold w = (Ok out, w') ->
  (embedding_of env (embed_calls w) question = None /\ out = rs) \/
  (Forall (scored_at_least threshold) out /\ List.length out <= List.length rs).
Proof.
  intros Hrun.
  destruct (embedding_of env (embed_calls w) question) as [qe|] eqn:Hq.
  - right.
    pose proof (filter_results_by_similarity_run env question rs threshold w qe Hq)
      as Hfst.
    rewrite Hrun in Hfst. cbn [fst] in Hfst.
    destruct (loop_outcome env qe threshold (S (embed_calls w)) rs [])
      as [filtered|e] eqn:Hloop; [|discriminate].
    destruct (loop_outcome_scored _ _ _ _ _ _ _ Hloop (Forall_nil _))
      as [Hscored Hlen].
    destruct (list_sort_reverse_scored threshold filtered Hscored)
      as [out' [Hsort [Hperm _]]].
    rewrite Hsort in Hfst. inversion Hfst; subst out'.
    split.
    + eapply Permutation_Forall; [apply Permutation_sym; exact Hperm | exact Hscored].
    + rewrite (Permutation_length Hperm). cbn [List.length] in Hlen. lia.
  - left. split; [reflexivity|].
    rewrite (filter_question_embedding_fails env _ _ _ _ Hq) in Hrun.
    inversion Hrun. reflexivity.
Qed.

(** The results of the search carry no score. *)
Lemma google_search_unscored (env : environment) (q key cx : string) (num : nat)
    (w w' : world) (rs : list search_result) :
  google_search env q key cx num w = (Ok rs, w') ->
  Forall (fun r => similarity_score r = None) rs /\
  w' = (w ++ [SearchCall q key cx num])%list.
Proof.
  unfold google_search, bind, outbound.
  destruct (cse_list env q key cx num) as [[items|]|e]; unfold ret; intros H;
    inversion H; subst; split; try reflexivity; try constructor.
  apply Forall_map. apply Forall_forall. intros it _. reflexivity.
Qed.

(** C2: a response of status 200 without an error field carries sources,
    total_found and filtered_count with filtered_count = len(sources) <=
    total_found, and every source is scored at or above 0.3. *)
Theorem ask_payload_invariant (env : environment) (data : json_object)
    (w w' : world) (b : body) :
  ask env data w = (Ok (b, 200), w') ->
  b_error b = None ->
  exists sources total,
    b_sources b = Some sources /\
    b_total_found b = Some total /\
    b_filtered_count b = Some (List.length sources) /\
    List.length sources <= total /\
    Forall (scored_at_least lit_0_3) sources.
Proof.
  unfold ask, try_except. intros Hrun Herr.
  destruct (is_empty (dict_get data "question" "")).
  { unfold ret in Hrun. inversion Hrun. }
  destruct (is_empty (GOOGLE_SEARCH_API_KEY env)
            || is_empty (GOOGLE_SEARCH_ENGINE_ID env)).
  { unfold ret in Hrun. inversion Hrun; subst b. discriminate Herr. }
  unfold bind at 1 in Hrun.
  destruct (google_search env (dict_get data "question" "")
              (GOOGLE_SEARCH_API_KEY env) (GOOGLE_SEARCH_ENGINE_ID env) 10 w)
    as [[rs|e] w1] eqn:Hsearch; [|unfold ret in Hrun; inversion Hrun].
  apply google_search_unscored in Hsearch. destruct Hsearch as [Hnone _].
  unfold bind at 1 in Hrun.
  destruct (filter_results_by_similarity env (dict_get data "question" "") rs
              lit_0_3 w1) as [[curated|e] w2] eqn:Hfilter;
    [|unfold ret in Hrun; inversion Hrun].
  unfold bind at 1 in Hrun.
  destruct (ask_gemini_with_context env (dict_get data "question" "") curated w2)
    as [[answer|e] w3] eqn:Hanswer; [|unfold ret in Hrun; inversion Hrun].
  unfold ret in Hrun. inversion Hrun; subst b w'. cbn.
  exists curated, (List.length rs). repeat split.
  - apply filter_results_by_similarity_returns in Hfilter.
    destruct Hfilter as [[_ Hsame]|[_ Hlen]]; [subst; lia | exact Hlen].
  - apply filter_results_by_similarity_returns in Hfilter.
    destruct Hfilter as [[_ Hsame]|[Hscored _]]; [|exact Hscored].
    subst curated.
    unfold ask_gemini_with_context, bind, lift, build_prompt in Hanswer.
    destruct (build_context 1 rs preamble) as [context|e] eqn:Hctx;
      [|discriminate].
    apply build_context_scored in Hctx.
    destruct rs as [|r rs]; [constructor|].
    inversion Hctx as [|? ? Hr _]; subst.
    inversion Hnone as [|? ? Hr' _]; subst. contradiction.
Qed.

(** C4: when the question is not empty, the credentials are present, the
    search finds at least one result and the embedding of the question
    fails, the request ends in the handler of the exception: status 500,
    an error field naming the missing key similarity_score and no answer,
    after the search call and the one embedding call; no generation call
    is made. *)
Theorem ask_question_embedding_fails (env : environment) (data : json_object)
    (w : world) (it : item) (items : list item) :
  is_empty (dict_get data "question" "") = false ->
  is_empty (GOOGLE_SEARCH_API_KEY env) = false ->
  is_empty (GOOGLE_SEARCH_ENGINE_ID env) = false ->
  cse_list env (dict_get data "question" "") (GOOGLE_SEARCH_API_KEY env)
    (GOOGLE_SEARCH_ENGINE_ID env) 10 = Ok (Some (it :: items)) ->
  embedding_of env (embed_calls w) (dict_get data "question" "") = None ->
  ask env data w
  = (Ok ({| b_error := Some "'similarity_score'"; b_answer := None;
            b_sources := None; b_total_found := None;
            b_filtered_count := None |}, 500),
     (w ++ [SearchCall (dict_get data "question" "") (GOOGLE_SEARCH_API_KEY env)
              (GOOGLE_SEARCH_ENGINE_ID env) 10;
            EmbedCall embedding_model (dict_get data "question" "")])%list).
Proof.
  intros Hq Hkey Hcx Hsearch Hembed.
  unfold ask, try_except. rewrite Hq, Hkey, Hcx. cbn [orb].
  unfold bind at 1. unfold google_search, bind at 1, outbound.
  rewrite Hsearch. unfold ret at 1. unfold bind at 1.
  rewrite filter_question_embedding_fails
    by (rewrite embed_calls_search; exact Hembed).
  unfold bind, ask_gemini_with_context, lift, build_prompt.
  cbn [map build_context get_similarity_score similarity_score].
  unfold ret, error_body. cbn [str_exn]. rewrite <- app_assoc. reflexivity.
Qed.

(** C8: for a non-empty question, when the API key or the engine id is
    empty the orchestrator answers 200 with a non-empty error, an
    explanatory answer and no source, and the log of outbound calls is the
    one it started with. *)
Theorem ask_missing_credentials (env : environment) (data : json_object)
    (w : world) :
  is_empty (dict_get data "question" "") = false ->
  GOOGLE_SEARCH_API_KEY env = "" \/ GOOGLE_SEARCH_ENGINE_ID env = "" ->
  exists err answer,
    ask env data w
    = (Ok ({| b_error := Some err; b_answer := Some answer;
              b_sources := Some []; b_total_found := None;
              b_filtered_count := None |}, 200), w) /\
    err <> "" /\ answer <> "".
Proof.
  intros Hq Hcred. unfold ask, try_except. rewrite Hq.
  assert (Hor : is_empty (GOOGLE_SEARCH_API_KEY env)
                || is_empty (GOOGLE_SEARCH_ENGINE_ID env) = true).
  { destruct Hcred as [H|H]; rewrite H; cbn; [reflexivity | apply orb_true_r]. }
  rewrite Hor. unfold ret, missing_credentials_body.
  eexists. eexists. split; [reflexivity|]. split; discriminate.
Qed.

(** C9: on a request whose question is empty (or absent) the orchestrator
    answers 400 with an error field and nothing else, and the log of
    outbound calls is the one it started with. *)
Theorem ask_empty_question (env : environment) (data : json_object) (w : world) :
  dict_get data "question" "" = "" ->
  exists msg,
    ask env data w
    = (Ok ({| b_error := Some msg; b_answer := None; b_sources := None;
              b_total_found := None; b_filtered_count := None |}, 400), w).
Proof.
  intros Hq. unfold ask, try_except. rewrite Hq. cbn [is_empty].
  eexists. reflexivity.
Qed.

(** ** The properties on the sample environment *)

(** Ties go to the even hundredth, and a negative value that rounds to zero
    keeps its sign: 0.125, 0.375, -2^-13 and 0.3. *)
Example format_2f_samples :
  format_2f (S754_finite false 4503599627370496 (-55)) = "0.12" /\
  format_2f (S754_finite false 6755399441055744 (-54)) = "0.38" /\
  format_2f (S754_finite true 4503599627370496 (-65)) = "-0.00" /\
  format_2f lit_0_3 = "0.30".
Proof. repeat split; reflexivity. Qed.

(** Three results are found; the one on the other axis (similarity 0) is
    dropped, the two others are ranked by similarity. *)
Example ask_sample_scenario :
  exists answer sources w',
    ask Sample.env Sample.data []
    = (Ok ({| b_error := None; b_answer := Some answer;
              b_sources := Some sources; b_total_found := Some 3;
              b_filtered_count := Some 2 |}, 200), w') /\
    map title sources = ["Eiffel"; "Paris"] /\
    map (fun r => option_map format_2f (similarity_score r)) sources
    = [Some "1.00"; Some "0.71"].
Proof.
  eexists. eexists. eexists. split; [lazy; reflexivity|].
  split; reflexivity.
Qed.

Lemma sample_similarities_defined :
  similarities_defined Sample.env [fone; fzero] 1 Sample.results.
Proof.
  intros n r re Hin Hre. cbn in Hin.
  destruct Hin as [H|[H|[H|[]]]]; inversion H; subst n r;
    cbv in Hre; inversion Hre; subst re; eexists; lazy; reflexivity.
Defined.

Lemma filter_results_by_similarity_correct_witness :
  embedding_of Sample.env (embed_calls []) Sample.question = Some [fone; fzero] /\
  exists out,
    filter_results_by_similarity Sample.env Sample.question Sample.results lit_0_3 []
    = (Ok out, ([] ++ EmbedCall embedding_model Sample.question
                   :: result_calls Sample.results)%list) /\
    Permutation out (kept Sample.env [fone; fzero] lit_0_3 (S (embed_calls []))
                       Sample.results) /\
    StronglySorted score_ge out /\
    (forall s, filter (has_score_eq s) out
               = filter (has_score_eq s)
                   (kept Sample.env [fone; fzero] lit_0_3 (S (embed_calls []))
                      Sample.results)) /\
    Forall (scored_at_least lit_0_3) out.
Proof.
  split; [reflexivity|].
  apply (filter_results_by_similarity_correct Sample.env Sample.question
           Sample.results lit_0_3 [] [fone; fzero]).
  - reflexivity.
  - exact sample_similarities_defined.
Defined.

Lemma ask_payload_invariant_witness :
  exists b w',
    ask Sample.env Sample.data [] = (Ok (b, 200), w') /\
    b_error b = None /\
    exists sources total,
      b_sources b = Some sources /\
      b_total_found b = Some total /\
      b_filtered_count b = Some (List.length sources) /\
      List.length sources <= total /\
      Forall (scored_at_least lit_0_3) sources.
Proof.
  eexists. eexists. split; [lazy; reflexivity|]. split; [reflexivity|].
  eapply (ask_payload_invariant Sample.env Sample.data []).
  - lazy. reflexivity.
  - reflexivity.
Defined.

Lemma filter_question_embedding_fails_witness :
  embedding_of Sample.env_down (embed_calls []) Sample.question = None /\
  filter_results_by_similarity Sample.env_down Sample.question Sample.results
    lit_0_3 []
  = (Ok Sample.results, ([] ++ [EmbedCall embedding_model Sample.question])%list).
Proof.
  split; [reflexivity|].
  apply (filter_question_embedding_fails Sample.env_down Sample.question
           Sample.results lit_0_3 []).
  reflexivity.
Defined.

Lemma ask_question_embedding_fails_witness :
  ask Sample.env_down Sample.data []
  = (Ok ({| b_error := Some "'similarity_score'"; b_answer := None;
            b_sources := None; b_total_found := None;
            b_filtered_count := None |}, 500),
     [SearchCall Sample.question "key" "engine" 10;
      EmbedCall embedding_model Sample.question]).
Proof.
  apply (ask_question_embedding_fails Sample.env_down Sample.data []
           (mk_item (Some "Paris") (Some "http://p") (Some "capital"))
           [mk_item (Some "Food") None (Some "cuisine");
            mk_item (Some "Eiffel") (Some "http://e") (Some "tower")]);
    reflexivity.
Defined.

Lemma filter_result_embedding_fails_witness :
  embedding_of Sample.env_second_fails 2 "Food cuisine" = None /\
  fst (filter_results_by_similarity Sample.env_second_fails Sample.question
         Sample.results lit_0_3 [])
  = fst (filter_results_by_similarity (skip_embedding 2 Sample.env_second_fails)
           Sample.question
           [mk_result "Paris" "http://p" "capital" None;
            mk_result "Eiffel" "http://e" "tower" None] lit_0_3 []).
Proof.
  split; [reflexivity|].
  apply (filter_result_embedding_fails Sample.env_second_fails Sample.question
           [mk_result "Paris" "http://p" "capital" None]
           (mk_result "Food" "" "cuisine" None)
           [mk_result "Eiffel" "http://e" "tower" None] lit_0_3 [] [fone; fzero]);
    reflexivity.
Defined.

Lemma build_prompt_listings_witness :
  build_prompt Sample.question Sample.curated
  = Ok (preamble
        ++ listings 1 Sample.curated
             [S754_finite false 8106479329266893 (-53);
              S754_finite false 7205759403792794 (-53);
              S754_finite false 4503599627370496 (-53)]
        ++ epilogue Sample.question).
Proof.
  apply (build_prompt_listings Sample.env Sample.question Sample.curated
           [S754_finite false 8106479329266893 (-53);
            S754_finite false 7205759403792794 (-53);
            S754_finite false 4503599627370496 (-53)] []).
  reflexivity.
Defined.

Lemma ask_missing_credentials_witness :
  exists err answer,
    ask Sample.env_no_key Sample.data []
    = (Ok ({| b_error := Some err; b_answer := Some answer;
              b_sources := Some []; b_total_found := None;
              b_filtered_count := None |}, 200), []) /\
    err <> "" /\ answer <> "".
Proof.
  apply (ask_missing_credentials Sample.env_no_key Sample.data []).
  - reflexivity.
  - left. reflexivity.
Defined.

Lemma ask_empty_question_witness :
  exists msg,
    ask Sample.env [("question", "")] []
    = (Ok ({| b_error := Some msg; b_answer := None; b_sources := None;
              b_total_found := None; b_filtered_count := None |}, 400), []).
Proof.
  apply (ask_empty_question Sample.env [("question", "")] []).
  reflexivity.
Defined.

(** ** Further properties: runs of the filter *)

Lemma filter_run_question_fails (env : environment) (question : string)
    (rs : list search_result) (threshold : float) (w : world) :
  embedding_of env (embed_calls w) question = None ->
  filter_results_by_similarity env question rs threshold w
  = (Ok rs, (w ++ [EmbedCall embedding_model question])%list).
Proof.
  intros Hq. unfold filter_results_by_similarity, bind, get_embedding.
  rewrite Hq. reflexivity.
Qed.

Lemma filter_run_empty (env : environment) (question : string)
    (threshold : float) (w : world) :
  filter_results_by_similarity env question [] threshold w
  = (Ok [], (w ++ [EmbedCall embedding_model question])%list).
Proof.
  unfold filter_results_by_similarity, bind, get_embedding.
  destruct (embedding_of env (embed_calls w) question); reflexivity.
Qed.

(** ** Further properties: the calls of the filter *)

Lemma google_search_run (env : environment) (q key cx : string) (num : nat)
    (w : world) :
  google_search env q key cx num w
  = (match cse_list env q key cx num with
     | Ok answer => Ok (found answer)
     | Raise e => Raise e
     end, (w ++ [SearchCall q key cx num])%list).
Proof.
  unfold google_search, bind, outbound, ret, found.
  destruct (cse_list env q key cx num) as [[items|]|e]; reflexivity.
Qed.

(** However the loop ends, it has made one embedding call for each result
    of a prefix of the list, and for all of them when it ends normally. *)
Lemma for_each_filter_step_prefix (env : environment) (qe : vec)
    (threshold : float) (rs : list search_result) :
  forall acc w o w',
    for_each rs (filter_step env qe threshold) acc w = (o, w') ->
    exists k, k <= List.length rs /\
      w' = (w ++ result_calls (firstn k rs))%list /\
      (forall out, o = Ok out -> k = List.length rs).
Proof.
  induction rs as [|r rs IH]; intros acc w o w' Hrun.
  - cbn in Hrun. unfold ret in Hrun. inversion Hrun; subst.
    exists 0. cbn. rewrite app_nil_r. split; [lia|]. split; reflexivity.
  - cbn [for_each] in Hrun. unfold bind at 1 in Hrun.
    unfold filter_step at 1 in Hrun. unfold bind at 1 in Hrun.
    unfold get_embedding at 1 in Hrun.
    assert (Hnext : forall acc',
      for_each rs (filter_step env qe threshold) acc'
        (w ++ [EmbedCall embedding_model (result_text r)])%list = (o, w') ->
      exists k, k <= List.length (r :: rs) /\
        w' = (w ++ result_calls (firstn k (r :: rs)))%list /\
        (forall out, o = Ok out -> k = List.length (r :: rs))).
    { intros acc' H. destruct (IH _ _ _ _ H) as [k [Hk [Hw Hall]]].
      exists (S k). cbn [List.length firstn result_calls map].
      split; [lia|]. split.
      - rewrite Hw, <- app_assoc. reflexivity.
      - intros out Ho. rewrite (Hall out Ho). reflexivity. }
    destruct (embedding_of env (embed_calls w) (result_text r)) as [re|].
    + unfold bind, lift in Hrun.
      destruct (cosine_similarity env qe re) as [s|e].
      * destruct (fge s threshold); unfold ret in Hrun; exact (Hnext _ Hrun).
      * inversion Hrun; subst. exists 1.
        cbn [List.length firstn result_calls map]. split; [lia|].
        split; [reflexivity | discriminate].
    + unfold ret in Hrun. exact (Hnext _ Hrun).
Qed.

(** The calls of the filter, however it ends. *)
Lemma filter_calls_prefix (env : environment)
    (question : string) (rs : list search_result) (threshold : float)
    (w w' : world) (o : outcome (list search_result)) :
  filter_results_by_similarity env question rs threshold w = (o, w') ->
  exists k, k <= List.length rs /\
    w' = (w ++ EmbedCall embedding_model question
            :: result_calls (firstn k rs))%list /\
    (embedding_of env (embed_calls w) question = None -> k = 0) /\
    (embedding_of env (embed_calls w) question <> None ->
     forall out, o = Ok out -> k = List.length rs).
Proof.
  unfold filter_results_by_similarity, bind at 1. unfold get_embedding at 1.
  destruct (embedding_of env (embed_calls w) question) as [qe|] eqn:Hq.
  - unfold bind, lift.
    destruct (for_each rs (filter_step env qe threshold) []
                (w ++ [EmbedCall embedding_model question])%list)
      as [o1 w1] eqn:Hloop.
    destruct (for_each_filter_step_prefix _ _ _ _ _ _ _ _ Hloop)
      as [k [Hk [Hw Hall]]].
    intros Hrun. exists k. split; [exact Hk|].
    assert (Hw' : w' = w1) by (destruct o1; inversion Hrun; reflexivity).
    split; [|split].
    + rewrite Hw', Hw, <- app_assoc. reflexivity.
    + discriminate.
    + intros _ out Ho. destruct o1 as [filtered|e].
      * exact (Hall filtered eq_refl).
      * inversion Hrun; subst. discriminate.
  - unfold ret. intros Hrun. inversion Hrun; subst. exists 0.
    cbn. repeat split; try lia. intros H. contradiction.
Qed.

(** X11: whatever the providers answer and however it ends, the filter only
    makes embedding calls: first the question, then the results of a prefix
    of the list in order, one call each; at most one call per result. A
    normal return after the question embedded has called for every result,
    and a failed question embedding stops after the first call. *)
Theorem filter_results_by_similarity_calls (env : environment)
    (question : string) (rs : list search_result) (threshold : float)
    (w w' : world) (o : outcome (list search_result)) :
  filter_results_by_similarity env question rs threshold w = (o, w') ->
  exists k, k <= List.length rs /\
    w' = (w ++ EmbedCall embedding_model question
            :: result_calls (firstn k rs))%list /\
    (embedding_of env (embed_calls w) question = None -> k = 0) /\
    (embedding_of env (embed_calls w) question <> None ->
     forall out, o = Ok out -> k = List.length rs).
Proof. exact (filter_calls_prefix env question rs threshold w w' o). Qed.

(** ** Further properties: the answer composer and the orchestrator *)

Lemma build_context_unscored (curated : list search_result) :
  forall idx context,
    Exists (fun r => similarity_score r = None) curated ->
    build_context idx curated context = Raise (KeyError "similarity_score").
Proof.
  induction curated as [|r curated IH]; intros idx context Hex.
  - inversion Hex.
  - cbn [build_context]. unfold get_similarity_score.
    destruct (similarity_score r) as [s|] eqn:Hs; [|reflexivity].
    cbv zeta. apply IH. inversion Hex as [? ? Hr|? ? Hrest]; subst.
    + rewrite Hs in Hr. discriminate.
    + exact Hrest.
Qed.

(** X10: given a list in which some result carries no score, the composer
    raises KeyError('similarity_score') before it calls the generation
    provider: the log is unchanged. *)
Theorem ask_gemini_with_context_unscored (env : environment) (question : string)
    (curated : list search_result) (w : world) :
  Exists (fun r => similarity_score r = None) curated ->
  ask_gemini_with_context env question curated w
  = (Raise (KeyError "similarity_score"), w).
Proof.
  intros Hex. unfold ask_gemini_with_context, bind, lift, build_prompt.
  rewrite (build_context_unscored _ _ _ Hex). reflexivity.
Qed.

(** X1: the orchestrator never lets an exception out and answers in one of
    four shapes: 400 with the error field only and no outbound call; 200
    with the missing-credentials body and no outbound call; 200 with answer,
    sources, total_found and filtered_count = len(sources) and no error
    field; 500 with the error field only, the text of the exception caught. *)
Theorem ask_response_shapes (env : environment) (data : json_object) (w : world) :
  exists b status w',
    ask env data w = (Ok (b, status), w') /\
    ((status = 400 /\ w' = w /\ exists msg, b = error_body msg) \/
     (status = 200 /\ w' = w /\ b = missing_credentials_body) \/
     (status = 200 /\ exists answer sources total,
        b = answer_body answer sources total) \/
     (status = 500 /\ exists e, b = error_body (str_exn e))).
Proof.
  unfold ask, try_except.
  destruct (is_empty (dict_get data "question" "")).
  { eexists. eexists. eexists. split; [reflexivity|].
    left. repeat split. eexists. reflexivity. }
  destruct (is_empty (GOOGLE_SEARCH_API_KEY env)
            || is_empty (GOOGLE_SEARCH_ENGINE_ID env)).
  { eexists. eexists. eexists. split; [reflexivity|].
    right. left. repeat split. }
  unfold bind at 1.
  destruct (google_search env (dict_get data "question" "")
              (GOOGLE_SEARCH_API_KEY env) (GOOGLE_SEARCH_ENGINE_ID env) 10 w)
    as [[rs|e] w1].
  2: { eexists. eexists. eexists. split; [reflexivity|].
       right. right. right. split; [reflexivity|]. exists e. reflexivity. }
  unfold bind at 1.
  destruct (filter_results_by_similarity env (dict_get data "question" "") rs
              lit_0_3 w1) as [[curated|e] w2].
  2: { eexists. eexists. eexists. split; [reflexivity|].
       right. right. right. split; [reflexivity|]. exists e. reflexivity. }
  unfold bind at 1.
  destruct (ask_gemini_with_context env (dict_get data "question" "") curated w2)
    as [[answer|e] w3].
  2: { eexists. eexists. eexists. split; [reflexivity|].
       right. right. right. split; [reflexivity|]. exists e. reflexivity. }
  eexists. eexists. eexists. split; [reflexivity|].
  right. right. left. split; [reflexivity|].
  exists answer, curated, (List.length rs). reflexivity.
Qed.

(** X2: when the search provider fails, the orchestrator answers 500 with
    the text of that failure, and the search call is the only outbound call:
    nothing is embedded or generated. *)
Theorem ask_search_failure (env : environment) (data : json_object) (w : world)
    (e : exn) :
  is_empty (dict_get data "question" "") = false ->
  is_empty (GOOGLE_SEARCH_API_KEY env) = false ->
  is_empty (GOOGLE_SEARCH_ENGINE_ID env) = false ->
  cse_list env (dict_get data "question" "") (GOOGLE_SEARCH_API_KEY env)
    (GOOGLE_SEARCH_ENGINE_ID env) 10 = Raise e ->
  ask env data w
  = (Ok (error_body (str_exn e), 500),
     (w ++ [SearchCall (dict_get data "question" "") (GOOGLE_SEARCH_API_KEY env)
              (GOOGLE_SEARCH_ENGINE_ID env) 10])%list).
Proof.
  intros Hq Hkey Hcx Hsearch.
  unfold ask, try_except. rewrite Hq, Hkey, Hcx. cbn [orb].
  unfold bind at 1. rewrite google_search_run, Hsearch. reflexivity.
Qed.

(** X3: when search, filter and prompt succeed and the generation provider
    fails on the prompt, the orchestrator answers 500 with the text of that
    failure and the error field only: no source or count of the work done
    is returned. The generation call is the last call of the log. *)
Theorem ask_generation_failure (env : environment) (data : json_object)
    (w w1 w2 : world) (rs curated : list search_result) (prompt : string)
    (e : exn) :
  is_empty (dict_get data "question" "") = false ->
  is_empty (GOOGLE_SEARCH_API_KEY env) = false ->
  is_empty (GOOGLE_SEARCH_ENGINE_ID env) = false ->
  google_search env (dict_get data "question" "") (GOOGLE_SEARCH_API_KEY env)
    (GOOGLE_SEARCH_ENGINE_ID env) 10 w = (Ok rs, w1) ->
  filter_results_by_similarity env (dict_get data "question" "") rs lit_0_3 w1
  = (Ok curated, w2) ->
  build_prompt (dict_get data "question" "") curated = Ok prompt ->
  generate_content env generation_model prompt = Raise e ->
  ask env data w
  = (Ok ({| b_error := Some (str_exn e); b_answer := None; b_sources := None;
            b_total_found := None; b_filtered_count := None |}, 500),
     (w2 ++ [GenerateCall generation_model prompt])%list).
Proof.
  intros Hq Hkey Hcx Hsearch Hfilter Hprompt Hgen.
  unfold ask, try_except. rewrite Hq, Hkey, Hcx. cbn [orb].
  unfold bind at 1. rewrite Hsearch.
  unfold bind at 1. rewrite Hfilter.
  unfold bind at 1. unfold ask_gemini_with_context, bind, lift, outbound.
  rewrite Hprompt, Hgen. reflexivity.
Qed.

(** X4: a full answer (200, no error field) is the end of exactly this
    sequence of outbound calls: one search call, the embedding call of the
    question, one embedding call per result found, in order, and one
    generation call, whose answer is returned verbatim; total_found is the
    number of items the search provider returned. So a full answer costs
    total_found + 1 embedding calls. *)
Theorem ask_success_calls (env : environment) (data : json_object)
    (w w' : world) (b : body) :
  ask env data w = (Ok (b, 200), w') ->
  b_error b = None ->
  exists items prompt answer,
    cse_list env (dict_get data "question" "") (GOOGLE_SEARCH_API_KEY env)
      (GOOGLE_SEARCH_ENGINE_ID env) 10 = Ok items /\
    generate_content env generation_model prompt = Ok answer /\
    b_answer b = Some answer /\
    b_total_found b = Some (List.length (found items)) /\
    w' = (w ++ SearchCall (dict_get data "question" "")
                 (GOOGLE_SEARCH_API_KEY env) (GOOGLE_SEARCH_ENGINE_ID env) 10
               :: EmbedCall embedding_model (dict_get data "question" "")
               :: result_calls (found items)
               ++ [GenerateCall generation_model prompt])%list.
Proof.
  unfold ask, try_except. intros Hrun Herr.
  destruct (is_empty (dict_get data "question" "")).
  { unfold ret in Hrun. inversion Hrun. }
  destruct (is_empty (GOOGLE_SEARCH_API_KEY env)
            || is_empty (GOOGLE_SEARCH_ENGINE_ID env)).
  { unfold ret in Hrun. inversion Hrun; subst b. discriminate Herr. }
  unfold bind at 1 in Hrun. rewrite google_search_run in Hrun.
  destruct (cse_list env (dict_get data "question" "")
              (GOOGLE_SEARCH_API_KEY env) (GOOGLE_SEARCH_ENGINE_ID env) 10)
    as [items|e]; [|unfold ret in Hrun; inversion Hrun].
  unfold bind at 1 in Hrun.
  destruct (filter_results_by_similarity env (dict_get data "question" "")
              (found items) lit_0_3 _) as [[curated|e] w2] eqn:Hfilter;
    [|unfold ret in Hrun; inversion Hrun].
  unfold bind at 1 in Hrun.
  unfold ask_gemini_with_context, bind at 1, lift in Hrun.
  destruct (build_prompt (dict_get data "question" "") curated)
    as [prompt|e] eqn:Hprompt; [|unfold ret in Hrun; inversion Hrun].
  unfold outbound in Hrun.
  destruct (generate_content env generation_model prompt) as [answer|e] eqn:Hgen;
    [|unfold ret in Hrun; inversion Hrun].
  unfold ret in Hrun. inversion Hrun; subst b w'. cbn.
  exists items, prompt, answer.
  split; [reflexivity|]. split; [exact Hgen|]. split; [reflexivity|].
  split; [reflexivity|].
  destruct (filter_calls_prefix _ _ _ _ _ _ _ Hfilter)
    as [k [Hk [Hw [Hnone Hsome]]]].
  assert (Hrs : result_calls (firstn k (found items)) = result_calls (found items)).
  { destruct (embedding_of env (embed_calls _) (dict_get data "question" ""))
      as [qe|] eqn:Hq.
    - rewrite (Hsome ltac:(discriminate) curated eq_refl), firstn_all. reflexivity.
    - rewrite (filter_run_question_fails _ _ _ _ _ Hq) in Hfilter.
      inversion Hfilter; subst curated.
      unfold build_prompt in Hprompt.
      destruct (build_context 1 (found items) preamble) as [c|] eqn:Hctx;
        [|discriminate].
      apply build_context_scored in Hctx.
      destruct items as [[|it items]|]; cbn in *; try reflexivity.
      + destruct k; reflexivity.
      + inversion Hctx as [|? ? Hr _]. cbn in Hr. contradiction.
      + destruct k; reflexivity. }
  rewrite Hw, Hrs, <- !app_assoc. reflexivity.
Qed.

(** X5: when the search finds nothing (no items key, or an empty list), the
    orchestrator still embeds the question and still asks the generation
    provider, with a prompt that is the preamble followed directly by the
    question and the instruction; the answer comes with no source and both
    counts 0, and a failure of the generation becomes a 500. *)
Theorem ask_no_results (env : environment) (data : json_object) (w : world)
    (items : option (list item)) :
  is_empty (dict_get data "question" "") = false ->
  is_empty (GOOGLE_SEARCH_API_KEY env) = false ->
  is_empty (GOOGLE_SEARCH_ENGINE_ID env) = false ->
  cse_list env (dict_get data "question" "") (GOOGLE_SEARCH_API_KEY env)
    (GOOGLE_SEARCH_ENGINE_ID env) 10 = Ok items ->
  found items = [] ->
  ask env data w
  = (match generate_content env generation_model
             (preamble ++ epilogue (dict_get data "question" "")) with
     | Ok answer =>
         Ok ({| b_error := None; b_answer := Some answer; b_sources := Some [];
                b_total_found := Some 0; b_filtered_count := Some 0 |}, 200)
     | Raise e => Ok (error_body (str_exn e), 500)
     end,
     (w ++ [SearchCall (dict_get data "question" "") (GOOGLE_SEARCH_API_KEY env)
              (GOOGLE_SEARCH_ENGINE_ID env) 10;
            EmbedCall embedding_model (dict_get data "question" "");
            GenerateCall generation_model
              (preamble ++ epilogue (dict_get data "question" ""))])%list).
Proof.
  intros Hq Hkey Hcx Hsearch Hnone.
  unfold ask, try_except. rewrite Hq, Hkey, Hcx. cbn [orb].
  unfold bind at 1. rewrite google_search_run, Hsearch, Hnone.
  unfold bind at 1. rewrite filter_run_empty.
  unfold bind at 1. unfold ask_gemini_with_context, bind, lift, outbound.
  set (prompt := preamble ++ epilogue (dict_get data "question" "")).
  change (build_prompt (dict_get data "question" "") []) with (Ok prompt).
  lazy beta iota.
  destruct (generate_content env generation_model prompt);
    unfold ret; cbn [List.length]; rewrite <- !app_assoc; reflexivity.
Qed.

(** ** Further properties: what the filter raises and returns *)

Lemma loop_outcome_raises (env : environment) (qe : vec) (threshold : float)
    (rs : list search_result) :
  forall n acc e,
    loop_outcome env qe threshold n rs acc = Raise e ->
    exists i r re,
      nth_error rs i = Some r /\
      embedding_of env (n + i) (result_text r) = Some re /\
      np_dot env qe re = Raise e.
Proof.
  induction rs as [|r rs IH]; intros n acc e Hrun; [discriminate|].
  cbn [loop_outcome] in Hrun.
  assert (Hnext : forall acc',
    loop_outcome env qe threshold (S n) rs acc' = Raise e ->
    exists i x re,
      nth_error (r :: rs) i = Some x /\
      embedding_of env (n + i) (result_text x) = Some re /\
      np_dot env qe re = Raise e).
  { intros acc' H. destruct (IH _ _ _ H) as [i [x [re [Hi [He Hd]]]]].
    exists (S i), x, re. split; [exact Hi|]. split; [|exact Hd].
    replace (n + S i) with (S n + i) by lia. exact He. }
  destruct (embedding_of env n (result_text r)) as [re|] eqn:Hre;
    [|exact (Hnext _ Hrun)].
  destruct (cosine_similarity env qe re) as [s|e'] eqn:Hcos;
    [exact (Hnext _ Hrun)|].
  inversion Hrun; subst e'. exists 0, r, re.
  split; [reflexivity|]. split; [rewrite Nat.add_0_r; exact Hre|].
  unfold cosine_similarity in Hcos.
  destruct (np_dot env qe re); [discriminate | exact Hcos].
Qed.

(** X6: the only exception the filter can raise is one that np.dot raised on
    the embedding of the question and the embedding of one of the results:
    a failure of the embedding provider is never propagated, and the sort
    never meets a result without a score. *)
Theorem filter_raises_only_numpy (env : environment) (question : string)
    (rs : list search_result) (threshold : float) (w w' : world) (e : exn) :
  filter_results_by_similarity env question rs threshold w = (Raise e, w') ->
  exists qe i r re,
    embedding_of env (embed_calls w) question = Some qe /\
    nth_error rs i = Some r /\
    embedding_of env (S (embed_calls w) + i) (result_text r) = Some re /\
    np_dot env qe re = Raise e.
Proof.
  intros Hrun.
  destruct (embedding_of env (embed_calls w) question) as [qe|] eqn:Hq.
  - pose proof (filter_results_by_similarity_run env question rs threshold w qe Hq)
      as Hfst.
    rewrite Hrun in Hfst. cbn [fst] in Hfst.
    destruct (loop_outcome env qe threshold (S (embed_calls w)) rs [])
      as [filtered|e'] eqn:Hloop.
    + destruct (loop_outcome_scored _ _ _ _ _ _ _ Hloop (Forall_nil _))
        as [Hscored _].
      destruct (list_sort_reverse_scored threshold filtered Hscored)
        as [out [Hsort _]].
      rewrite Hsort in Hfst. discriminate.
    + inversion Hfst; subst e'.
      destruct (loop_outcome_raises _ _ _ _ _ _ _ Hloop) as [i [r [re H]]].
      exists qe, i, r, re. split; [reflexivity | exact H].
  - rewrite (filter_run_question_fails _ _ _ _ _ Hq) in Hrun.
    discriminate.
Qed.

Lemma loop_outcome_same_text (env : environment) (qe : vec) (threshold : float)
    (all : list search_result) (rs : list search_result) :
  forall n acc out,
    incl rs all ->
    loop_outcome env qe threshold n rs acc = Ok out ->
    Forall (fun o => exists r, In r all /\ same_text o r) acc ->
    Forall (fun o => exists r, In r all /\ same_text o r) out.
Proof.
  induction rs as [|r rs IH]; intros n acc out Hincl Hrun Hacc.
  - cbn in Hrun. inversion Hrun; subst. exact Hacc.
  - cbn [loop_outcome] in Hrun.
    assert (Hincl' : incl rs all) by (intros x Hx; apply Hincl; right; exact Hx).
    destruct (embedding_of env n (result_text r)) as [re|];
      [|exact (IH _ _ _ Hincl' Hrun Hacc)].
    destruct (cosine_similarity env qe re) as [s|e]; [|discriminate].
    destruct (fge s threshold); [|exact (IH _ _ _ Hincl' Hrun Hacc)].
    apply (IH _ _ _ Hincl' Hrun). apply Forall_app. split; [exact Hacc|].
    constructor; [|constructor]. exists r.
    split; [apply Hincl; left; reflexivity | repeat split].
Qed.

(** The filter only ever writes the score. *)
Lemma filter_same_text (env : environment) (question : string)
    (rs : list search_result) (threshold : float) (w w' : world)
    (out : list search_result) :
  filter_results_by_similarity env question rs threshold w = (Ok out, w') ->
  List.length out <= List.length rs /\
  Forall (fun o => exists r, In r rs /\ same_text o r) out.
Proof.
  intros Hrun. split.
  - destruct (filter_results_by_similarity_returns _ _ _ _ _ _ _ Hrun)
      as [[_ Hsame]|[_ Hlen]]; [subst; lia | exact Hlen].
  - destruct (embedding_of env (embed_calls w) question) as [qe|] eqn:Hq.
    + pose proof (filter_results_by_similarity_run env question rs threshold w
                    qe Hq) as Hfst.
      rewrite Hrun in Hfst. cbn [fst] in Hfst.
      destruct (loop_outcome env qe threshold (S (embed_calls w)) rs [])
        as [filtered|e] eqn:Hloop; [|discriminate].
      destruct (loop_outcome_scored _ _ _ _ _ _ _ Hloop (Forall_nil _))
        as [Hscored _].
      destruct (list_sort_reverse_scored threshold filtered Hscored)
        as [out' [Hsort [Hperm _]]].
      rewrite Hsort in Hfst. inversion Hfst; subst out'.
      eapply Permutation_Forall; [apply Permutation_sym; exact Hperm|].
      apply (loop_outcome_same_text env qe threshold rs rs _ [] filtered
               (incl_refl rs) Hloop). constructor.
    + rewrite (filter_run_question_fails _ _ _ _ _ Hq) in Hrun.
      inversion Hrun; subst. apply Forall_forall. intros o Ho.
      exists o. split; [exact Ho | repeat split].
Qed.

(** X7: whatever the filter returns, it returns at most as many results as
    it was given, and each of them has the title, the link and the snippet
    of a result of the input: the filter only ever writes the score. *)
Theorem filter_preserves_text (env : environment) (question : string)
    (rs : list search_result) (threshold : float) (w w' : world)
    (out : list search_result) :
  filter_results_by_similarity env question rs threshold w = (Ok out, w') ->
  List.length out <= List.length rs /\
  Forall (fun o => exists r, In r rs /\ same_text o r) out.
Proof. exact (filter_same_text env question rs threshold w w' out). Qed.

Lemma fge_not_nan (s threshold : float) :
  fge s threshold = true -> is_nan s = false /\ is_nan threshold = false.
Proof.
  unfold fge, SFleb. destruct threshold, s; cbn; try discriminate;
    intros _; split; reflexivity.
Qed.

(** X9: after the question embedded, no result the filter returns carries a
    NaN score, whatever the threshold; and a NaN threshold keeps nothing. *)
Theorem filter_scores_not_nan (env : environment) (question : string)
    (rs : list search_result) (threshold : float) (w w' : world)
    (out : list search_result) :
  embedding_of env (embed_calls w) question <> None ->
  filter_results_by_similarity env question rs threshold w = (Ok out, w') ->
  Forall (fun r => exists s, similarity_score r = Some s /\ is_nan s = false) out /\
  (is_nan threshold = true -> out = []).
Proof.
  intros Hq Hrun.
  destruct (filter_results_by_similarity_returns _ _ _ _ _ _ _ Hrun)
    as [[Hnone _]|[Hscored _]]; [contradiction|].
  split.
  - eapply Forall_impl; [|exact Hscored].
    intros r [s [Hs Hge]]. exists s. split; [exact Hs|].
    exact (proj1 (fge_not_nan _ _ Hge)).
  - intros Hnan. destruct out as [|r out]; [reflexivity|].
    inversion Hscored as [|? ? [s [_ Hge]] _]; subst.
    rewrite (proj2 (fge_not_nan _ _ Hge)) in Hnan. discriminate.
Qed.

(** ** Further properties: the similarity *)

Lemma fmul_comm (x y : float) : fmul x y = fmul y x.
Proof.
  unfold fmul, SFmul.
  destruct x as [sx|sx| |sx mx ex], y as [sy|sy| |sy my ey];
    try reflexivity; try (rewrite (xorb_comm sx sy); reflexivity).
  rewrite (xorb_comm sx sy), (Pos.mul_comm mx my), (Z.add_comm ex ey).
  reflexivity.
Qed.

(** X12: the similarity is symmetric on every pair on which np.dot is: the
    product of the two norms is the same binary64 value in either order. *)
Theorem cosine_similarity_symmetric (env : environment) (vec1 vec2 : vec) :
  np_dot env vec1 vec2 = np_dot env vec2 vec1 ->
  cosine_similarity env vec1 vec2 = cosine_similarity env vec2 vec1.
Proof.
  intros Hdot. unfold cosine_similarity. rewrite Hdot.
  rewrite (fmul_comm (np_linalg_norm env vec1) (np_linalg_norm env vec2)).
  reflexivity.
Qed.

Lemma fdiv_zero_zero_product (sd sn : bool) (x : float) :
  fdiv (S754_zero sd) (fmul (S754_zero sn) x) = S754_nan.
Proof. destruct x; reflexivity. Qed.

(** X8: the division of line 44 is not guarded. When the dot product is
    zero and the norm of the embedding of the question or of the result is
    zero (an all-zero embedding), the similarity is NaN, no exception is
    raised, and the loop drops the result whatever the threshold, infinite
    ones included. *)
Theorem filter_step_zero_norm (env : environment) (qe re : vec)
    (threshold : float) (r : search_result) (acc : list search_result)
    (w : world) (sd sn : bool) :
  embedding_of env (embed_calls w) (result_text r) = Some re ->
  np_dot env qe re = Ok (S754_zero sd) ->
  np_linalg_norm env qe = S754_zero sn \/ np_linalg_norm env re = S754_zero sn ->
  cosine_similarity env qe re = Ok S754_nan /\
  filter_step env qe threshold r acc w
  = (Ok acc, (w ++ [EmbedCall embedding_model (result_text r)])%list).
Proof.
  intros Hre Hdot Hnorm.
  assert (Hcos : cosine_similarity env qe re = Ok S754_nan).
  { unfold cosine_similarity. rewrite Hdot. f_equal.
    destruct Hnorm as [H|H]; rewrite H.
    - apply fdiv_zero_zero_product.
    - rewrite fmul_comm. apply fdiv_zero_zero_product. }
  split; [exact Hcos|].
  unfold filter_step, bind, get_embedding, lift. rewrite Hre, Hcos.
  replace (fge S754_nan threshold) with false
    by (unfold fge, SFleb; destruct threshold; reflexivity).
  reflexivity.
Qed.

(** ** Further properties: scores on the input *)

Lemma loop_outcome_clear_score (env : environment) (qe : vec) (threshold : float)
    (rs : list search_result) :
  forall n acc,
    loop_outcome env qe threshold n (map clear_score rs) acc
    = loop_outcome env qe threshold n rs acc.
Proof.
  induction rs as [|r rs IH]; intros n acc; [reflexivity|].
  cbn [map loop_outcome].
  change (result_text (clear_score r)) with (result_text r).
  destruct (embedding_of env n (result_text r)) as [re|]; [|apply IH].
  destruct (cosine_similarity env qe re) as [s|e]; [|reflexivity].
  change (set_similarity_score (clear_score r) s) with (set_similarity_score r s).
  apply IH.
Qed.

(** X14: once the question embedded, a score the input results already
    carry plays no part: the filter returns (or raises) the same on the
    input and on the input with its scores removed. *)
Theorem filter_ignores_old_scores (env : environment) (question : string)
    (rs : list search_result) (threshold : float) (w : world) :
  embedding_of env (embed_calls w) question <> None ->
  fst (filter_results_by_similarity env question rs threshold w)
  = fst (filter_results_by_similarity env question (map clear_score rs)
           threshold w).
Proof.
  intros Hq.
  destruct (embedding_of env (embed_calls w) question) as [qe|] eqn:Hqe;
    [|contradiction].
  rewrite !(filter_results_by_similarity_run env _ _ _ _ qe Hqe).
  rewrite loop_outcome_clear_score. reflexivity.
Qed.

(** ** Further properties: the threshold *)

Lemma fge_trans (a b c : float) :
  fge a b = true -> fge b c = true -> fge a c = true.
Proof.
  unfold fge. intros Hab Hbc. exact (SFleb_trans c b a Hbc Hab).
Qed.

Lemma fge_not_flt (a b : float) : fge a b = true -> flt a b = false.
Proof.
  unfold fge, flt, SFleb, SFltb. rewrite (SFcompare_antisym b a).
  destruct (SFcompare b a) as [[ | | ]|]; cbn; try discriminate; reflexivity.
Qed.

Section SortFilter.

Context {A : Type}.
Variable f : float * A -> bool.

Lemma insert_reverse_first (k : float) (x : A) (l : list (float * A)) :
  Forall (fun p => fge k (fst p) = true) l ->
  insert_reverse k x l = (k, x) :: l.
Proof.
  destruct l as [|[k' y] l]; [reflexivity|].
  intros Hall. inversion Hall as [|? ? Hk _]; subst. cbn [fst] in Hk.
  cbn [insert_reverse]. rewrite (fge_not_flt _ _ Hk). reflexivity.
Qed.

Lemma insert_reverse_filter (t k : float) (x : A) (l : list (float * A)) :
  fge k t = true ->
  Forall (fun p => fge (fst p) t = true) l ->
  StronglySorted key_ge l ->
  filter f (insert_reverse k x l)
  = if f (k, x) then insert_reverse k x (filter f l) else filter f l.
Proof.
  intros Hk Hall Hs. induction l as [|[k' y] l IH].
  - cbn. destruct (f (k, x)); reflexivity.
  - inversion Hall as [|? ? Hk' Hall']; subst. cbn [fst] in Hk'.
    inversion Hs as [|? ? Hs' Hle]; subst.
    cbn [insert_reverse]. destruct (flt k k') eqn:Hlt.
    + cbn [filter]. rewrite (IH Hall' Hs').
      destruct (f (k', y)); destruct (f (k, x)); try reflexivity.
      cbn [insert_reverse]. rewrite Hlt. reflexivity.
    + cbn [filter]. destruct (f (k, x)); [|reflexivity].
      symmetry. apply insert_reverse_first.
      pose proof (fge_total t k k' Hk Hk' Hlt) as Hkk'.
      assert (Hbelow : Forall (fun p => fge k (fst p) = true) ((k', y) :: l)).
      { constructor; [exact Hkk'|].
        eapply Forall_impl; [|exact Hle]. intros p Hp.
        exact (fge_trans _ _ _ Hkk' Hp). }
      change (Forall (fun p => fge k (fst p) = true) (filter f ((k', y) :: l))).
      apply Forall_forall. intros p Hp. apply filter_In in Hp.
      exact (proj1 (Forall_forall _ _) Hbelow p (proj1 Hp)).
Qed.

Lemma sort_reverse_strongly_sorted (t : float) (l : list (float * A)) :
  Forall (fun p => fge (fst p) t = true) l ->
  StronglySorted key_ge (sort_reverse l).
Proof.
  intros Hall. apply Sorted_StronglySorted.
  - intros a b c. unfold key_ge. apply fge_trans.
  - exact (sort_reverse_sorted t l Hall).
Qed.

(** Sorting what is left after a filter is filtering what was sorted. *)
Lemma sort_reverse_filter (t : float) (l : list (float * A)) :
  Forall (fun p => fge (fst p) t = true) l ->
  sort_reverse (filter f l) = filter f (sort_reverse l).
Proof.
  induction l as [|[k x] l IH]; intros Hall; [reflexivity|].
  inversion Hall as [|? ? Hk Hall']; subst. cbn [fst] in Hk.
  cbn [sort_reverse filter].
  rewrite (insert_reverse_filter t k x (sort_reverse l) Hk).
  - destruct (f (k, x)); cbn [sort_reverse]; rewrite (IH Hall'); reflexivity.
  - eapply Permutation_Forall; [|exact Hall'].
    apply Permutation_sym, sort_reverse_perm.
  - exact (sort_reverse_strongly_sorted t l Hall').
Qed.

End SortFilter.

Lemma decorate_filter_reaches (t1 t2 : float) (l : list search_result)
    (d : list (float * search_result)) :
  Forall (scored_at_least t1) l ->
  decorate get_similarity_score l = Ok d ->
  decorate get_similarity_score (filter (reaches t2) l)
  = Ok (filter (fun p => fge (fst p) t2) d).
Proof.
  revert d. induction l as [|r l IH]; intros d Hall Hd.
  - cbn in Hd. inversion Hd. reflexivity.
  - inversion Hall as [|? ? [s [Hs _]] Hall']; subst.
    cbn [decorate] in Hd. unfold get_similarity_score at 1 in Hd.
    rewrite Hs in Hd.
    destruct (decorate get_similarity_score l) as [d'|] eqn:Hd'; [|discriminate].
    inversion Hd; subst d. cbn [filter fst].
    unfold reaches at 1. rewrite Hs.
    destruct (fge s t2).
    + cbn [decorate]. unfold get_similarity_score at 1.
      rewrite Hs, (IH d' Hall' eq_refl). reflexivity.
    + exact (IH d' Hall' eq_refl).
Qed.

Lemma filter_reaches_undecorate (t1 t2 : float)
    (d : list (float * search_result)) :
  Forall (decorated_above t1) d ->
  filter (reaches t2) (map snd d)
  = map snd (filter (fun p => fge (fst p) t2) d).
Proof.
  induction 1 as [|p d [Hp _] _ IH]; [reflexivity|].
  cbn [map filter]. unfold reaches at 1. rewrite Hp.
  destruct (fge (fst p) t2); cbn [map]; rewrite IH; reflexivity.
Qed.

Lemma list_sort_reverse_filter_reaches (t1 t2 : float)
    (l out : list search_result) :
  Forall (scored_at_least t1) l ->
  list_sort_reverse get_similarity_score l = Ok out ->
  list_sort_reverse get_similarity_score (filter (reaches t2) l)
  = Ok (filter (reaches t2) out).
Proof.
  intros Hall Hsort.
  destruct (decorate_scored t1 l Hall) as [d [Hd [Hmap Hdec]]].
  unfold list_sort_reverse in *. rewrite Hd in Hsort. inversion Hsort; subst out.
  rewrite (decorate_filter_reaches t1 t2 l d Hall Hd). f_equal.
  assert (Hbound : Forall (fun p => fge (fst p) t1 = true) d).
  { eapply Forall_impl; [|exact Hdec]. intros p [_ Hp]. exact Hp. }
  rewrite (sort_reverse_filter _ t1 d Hbound).
  symmetry. apply (filter_reaches_undecorate t1).
  eapply Permutation_Forall; [|exact Hdec].
  apply Permutation_sym, sort_reverse_perm.
Qed.

Lemma loop_outcome_threshold (env : environment) (qe : vec) (t1 t2 : float)
    (rs : list search_result) :
  fge t2 t1 = true ->
  forall n acc out,
    loop_outcome env qe t1 n rs acc = Ok out ->
    loop_outcome env qe t2 n rs (filter (reaches t2) acc)
    = Ok (filter (reaches t2) out).
Proof.
  intros Ht. induction rs as [|r rs IH]; intros n acc out Hrun.
  - cbn in *. inversion Hrun. reflexivity.
  - cbn [loop_outcome] in *.
    destruct (embedding_of env n (result_text r)) as [re|]; [|exact (IH _ _ _ Hrun)].
    destruct (cosine_similarity env qe re) as [s|e]; [|discriminate].
    destruct (fge s t1) eqn:H1.
    + assert (Hacc : filter (reaches t2) (acc ++ [set_similarity_score r s])%list
                     = if fge s t2
                       then (filter (reaches t2) acc ++ [set_similarity_score r s])%list
                       else filter (reaches t2) acc).
      { rewrite filter_app. cbn [filter].
        change (reaches t2 (set_similarity_score r s)) with (fge s t2).
        destruct (fge s t2); [reflexivity | apply app_nil_r]. }
      rewrite <- Hacc. exact (IH _ _ _ Hrun).
    + destruct (fge s t2) eqn:H2.
      * rewrite (fge_trans _ _ _ H2 Ht) in H1. discriminate.
      * exact (IH _ _ _ Hrun).
Qed.

(** X13: raising the threshold only removes results. After the question
    embedded, if the filter returns [out] for a threshold, then for every
    threshold at or above it the filter returns the results of [out] whose
    score reaches the higher threshold, in the order they have in [out], and
    makes the same calls. *)
Theorem filter_threshold_monotone (env : environment) (question : string)
    (rs : list search_result) (t1 t2 : float) (w w' : world)
    (out : list search_result) :
  embedding_of env (embed_calls w) question <> None ->
  fge t2 t1 = true ->
  filter_results_by_similarity env question rs t1 w = (Ok out, w') ->
  filter_results_by_similarity env question rs t2 w
  = (Ok (filter (reaches t2) out), w').
Proof.
  intros Hq Ht Hrun.
  destruct (embedding_of env (embed_calls w) question) as [qe|] eqn:Hqe;
    [|contradiction].
  pose proof (filter_results_by_similarity_run env question rs t1 w qe Hqe) as H1.
  pose proof (filter_results_by_similarity_run env question rs t2 w qe Hqe) as H2.
  rewrite Hrun in H1. cbn [fst] in H1.
  destruct (loop_outcome env qe t1 (S (embed_calls w)) rs []) as [filtered|e]
    eqn:Hloop; [|discriminate].
  pose proof (loop_outcome_threshold env qe t1 t2 rs Ht _ _ _ Hloop) as Hloop2.
  cbn [filter] in Hloop2. rewrite Hloop2 in H2.
  destruct (loop_outcome_scored _ _ _ _ _ _ _ Hloop (Forall_nil _)) as [Hscored _].
  rewrite (list_sort_reverse_filter_reaches t1 t2 filtered out Hscored
             (eq_sym H1)) in H2.
  destruct (filter_results_by_similarity env question rs t2 w) as [o2 w2] eqn:Hrun2.
  cbn [fst] in H2. subst o2. f_equal.
  destruct (filter_calls_prefix _ _ _ _ _ _ _ Hrun)
    as [k1 [_ [Hw1 [_ Hk1]]]].
  destruct (filter_calls_prefix _ _ _ _ _ _ _ Hrun2)
    as [k2 [_ [Hw2 [_ Hk2]]]].
  rewrite Hqe in Hk1, Hk2.
  rewrite (Hk1 ltac:(discriminate) _ eq_refl) in Hw1.
  rewrite (Hk2 ltac:(discriminate) _ eq_refl) in Hw2.
  rewrite Hw1, Hw2. reflexivity.
Qed.

(** ** Further properties: the sources of a full answer *)

(** X15: in a full answer (200, no error field) the sources are ranked by
    descending score, every earlier source scored at least as high as every
    later one, and each source has the title, the link and the snippet of a
    result the search provider returned: no source is made up. *)
Theorem ask_sources_ranked (env : environment) (data : json_object)
    (w w' : world) (b : body) (items : option (list item))
    (sources : list search_result) :
  ask env data w = (Ok (b, 200), w') ->
  b_error b = None ->
  cse_list env (dict_get data "question" "") (GOOGLE_SEARCH_API_KEY env)
    (GOOGLE_SEARCH_ENGINE_ID env) 10 = Ok items ->
  b_sources b = Some sources ->
  StronglySorted score_ge sources /\
  Forall (fun o => exists r, In r (found items) /\ same_text o r) sources.
Proof.
  unfold ask, try_except. intros Hrun Herr Hsearch Hsources.
  destruct (is_empty (dict_get data "question" "")).
  { unfold ret in Hrun. inversion Hrun. }
  destruct (is_empty (GOOGLE_SEARCH_API_KEY env)
            || is_empty (GOOGLE_SEARCH_ENGINE_ID env)).
  { unfold ret in Hrun. inversion Hrun; subst b. discriminate Herr. }
  unfold bind at 1 in Hrun. rewrite google_search_run, Hsearch in Hrun.
  unfold bind at 1 in Hrun.
  destruct (filter_results_by_similarity env (dict_get data "question" "")
              (found items) lit_0_3 _) as [[curated|e] w2] eqn:Hfilter;
    [|unfold ret in Hrun; inversion Hrun].
  unfold bind at 1 in Hrun.
  destruct (ask_gemini_with_context env (dict_get data "question" "") curated w2)
    as [[answer|e] w3] eqn:Hanswer; [|unfold ret in Hrun; inversion Hrun].
  unfold ret in Hrun. inversion Hrun; subst b w'. cbn in Hsources.
  inversion Hsources; subst sources.
  split; [|exact (proj2 (filter_same_text _ _ _ _ _ _ _ Hfilter))].
  match type of Hfilter with
  | filter_results_by_similarity _ _ _ _ ?w1 = _ =>
      destruct (embedding_of env (embed_calls w1) (dict_get data "question" ""))
        as [qe|] eqn:Hq
  end.
  - pose proof (filter_results_by_similarity_run env _ (found items) lit_0_3 _
                  qe Hq) as Hfst.
    rewrite Hfilter in Hfst. cbn [fst] in Hfst.
    destruct (loop_outcome env qe lit_0_3 _ (found items) [])
      as [filtered|e] eqn:Hloop; [|discriminate].
    destruct (loop_outcome_scored _ _ _ _ _ _ _ Hloop (Forall_nil _))
      as [Hscored _].
    destruct (list_sort_reverse_scored lit_0_3 filtered Hscored)
      as [out [Hsort [_ [Hsorted _]]]].
    rewrite Hsort in Hfst. inversion Hfst; subst out.
    apply Sorted_StronglySorted; [|exact Hsorted].
    intros x y z. apply score_ge_trans.
  - rewrite (filter_run_question_fails _ _ _ _ _ Hq) in Hfilter.
    inversion Hfilter; subst curated.
    unfold ask_gemini_with_context, bind, lift, build_prompt in Hanswer.
    destruct (build_context 1 (found items) preamble) as [c|] eqn:Hctx;
      [|discriminate].
    apply build_context_scored in Hctx.
    destruct items as [[|it items]|]; cbn in *.
    + constructor.
    + inversion Hctx as [|? ? Hr _]. cbn in Hr. contradiction.
    + constructor.
Qed.

(** ** The further properties on concrete environments *)

Lemma ask_search_failure_witness :
  ask Cases.env_search_down Sample.data []
  = (Ok (error_body "HttpError 403", 500),
     [SearchCall Sample.question "key" "engine" 10]).
Proof.
  apply (ask_search_failure Cases.env_search_down Sample.data []
           (ProviderError "HttpError 403")); reflexivity.
Defined.

Lemma ask_generation_failure_witness :
  exists w2 prompt,
    ask Cases.env_generation_down Sample.data []
    = (Ok ({| b_error := Some "quota exceeded"; b_answer := None;
              b_sources := None; b_total_found := None;
              b_filtered_count := None |}, 500),
       (w2 ++ [GenerateCall generation_model prompt])%list).
Proof.
  eexists. eexists.
  eapply (ask_generation_failure Cases.env_generation_down Sample.data []
            _ _ _ _ _ (ProviderError "quota exceeded")).
  - reflexivity.
  - reflexivity.
  - reflexivity.
  - lazy. reflexivity.
  - lazy. reflexivity.
  - lazy. reflexivity.
  - reflexivity.
Defined.

Lemma ask_success_calls_witness :
  exists b w',
    ask Sample.env Sample.data [] = (Ok (b, 200), w') /\
    b_error b = None /\
    exists items prompt answer,
      cse_list Sample.env (dict_get Sample.data "question" "")
        (GOOGLE_SEARCH_API_KEY Sample.env) (GOOGLE_SEARCH_ENGINE_ID Sample.env) 10
      = Ok items /\
      generate_content Sample.env generation_model prompt = Ok answer /\
      b_answer b = Some answer /\
      b_total_found b = Some (List.length (found items)) /\
      w' = ([] ++ SearchCall (dict_get Sample.data "question" "")
                    (GOOGLE_SEARCH_API_KEY Sample.env)
                    (GOOGLE_SEARCH_ENGINE_ID Sample.env) 10
                  :: EmbedCall embedding_model (dict_get Sample.data "question" "")
                  :: result_calls (found items)
                  ++ [GenerateCall generation_model prompt])%list.
Proof.
  eexists. eexists. split; [lazy; reflexivity|]. split; [reflexivity|].
  eapply (ask_success_calls Sample.env Sample.data []).
  - lazy. reflexivity.
  - reflexivity.
Defined.

Lemma ask_no_results_witness :
  ask Cases.env_no_items Sample.data []
  = (Ok ({| b_error := None; b_answer := Some "I do not know.";
            b_sources := Some []; b_total_found := Some 0;
            b_filtered_count := Some 0 |}, 200),
     [SearchCall Sample.question "key" "engine" 10;
      EmbedCall embedding_model Sample.question;
      GenerateCall generation_model (preamble ++ epilogue Sample.question)]).
Proof.
  apply (ask_no_results Cases.env_no_items Sample.data [] None); reflexivity.
Defined.

Lemma filter_raises_only_numpy_witness :
  exists e w',
    filter_results_by_similarity Cases.env_shape_error Sample.question
      Sample.results lit_0_3 [] = (Raise e, w') /\
    exists qe i r re,
      embedding_of Cases.env_shape_error (embed_calls []) Sample.question
      = Some qe /\
      nth_error Sample.results i = Some r /\
      embedding_of Cases.env_shape_error (S (embed_calls []) + i) (result_text r)
      = Some re /\
      np_dot Cases.env_shape_error qe re = Raise e.
Proof.
  eexists. eexists. split; [lazy; reflexivity|].
  eapply (filter_raises_only_numpy Cases.env_shape_error Sample.question
            Sample.results lit_0_3 []).
  lazy. reflexivity.
Defined.

Lemma filter_preserves_text_witness :
  exists out w',
    filter_results_by_similarity Sample.env Sample.question Sample.results
      lit_0_3 [] = (Ok out, w') /\
    List.length out <= List.length Sample.results /\
    Forall (fun o => exists r, In r Sample.results /\ same_text o r) out.
Proof.
  eexists. eexists. split; [lazy; reflexivity|].
  eapply (filter_preserves_text Sample.env Sample.question Sample.results
            lit_0_3 []).
  lazy. reflexivity.
Defined.

Lemma filter_scores_not_nan_witness :
  exists out w',
    filter_results_by_similarity Sample.env Sample.question Sample.results
      lit_0_3 [] = (Ok out, w') /\
    Forall (fun r => exists s, similarity_score r = Some s /\ is_nan s = false) out /\
    (is_nan lit_0_3 = true -> out = []).
Proof.
  eexists. eexists. split; [lazy; reflexivity|].
  eapply (filter_scores_not_nan Sample.env Sample.question Sample.results
            lit_0_3 []).
  - discriminate.
  - lazy. reflexivity.
Defined.

Lemma filter_step_zero_norm_witness :
  cosine_similarity Cases.env_zero_vector [fone; fzero] [fzero; fzero]
  = Ok S754_nan /\
  filter_step Cases.env_zero_vector [fone; fzero] (S754_infinity true)
    (mk_result "Food" "" "cuisine" None) []
    [EmbedCall embedding_model Sample.question;
     EmbedCall embedding_model "Paris capital"]
  = (Ok [],
     ([EmbedCall embedding_model Sample.question;
       EmbedCall embedding_model "Paris capital"]
      ++ [EmbedCall embedding_model
            (result_text (mk_result "Food" "" "cuisine" None))])%list).
Proof.
  apply (filter_step_zero_norm Cases.env_zero_vector [fone; fzero] [fzero; fzero]
           (S754_infinity true) (mk_result "Food" "" "cuisine" None) []
           [EmbedCall embedding_model Sample.question;
            EmbedCall embedding_model "Paris capital"] false false).
  - reflexivity.
  - reflexivity.
  - right. reflexivity.
Defined.

Lemma ask_gemini_with_context_unscored_witness :
  ask_gemini_with_context Sample.env Sample.question Sample.results []
  = (Raise (KeyError "similarity_score"), []).
Proof.
  apply (ask_gemini_with_context_unscored Sample.env Sample.question
           Sample.results []).
  apply Exists_cons_hd. reflexivity.
Defined.

Lemma filter_results_by_similarity_calls_witness :
  exists o w',
    filter_results_by_similarity Cases.env_shape_error Sample.question
      Sample.results lit_0_3 [] = (o, w') /\
    exists k, k <= List.length Sample.results /\
      w' = ([] ++ EmbedCall embedding_model Sample.question
               :: result_calls (firstn k Sample.results))%list /\
      (embedding_of Cases.env_shape_error (embed_calls []) Sample.question = None ->
       k = 0) /\
      (embedding_of Cases.env_shape_error (embed_calls []) Sample.question <> None ->
       forall out, o = Ok out -> k = List.length Sample.results).
Proof.
  eexists. eexists. split; [lazy; reflexivity|].
  eapply (filter_results_by_similarity_calls Cases.env_shape_error Sample.question
            Sample.results lit_0_3 []).
  lazy. reflexivity.
Defined.

Lemma cosine_similarity_symmetric_witness :
  cosine_similarity Sample.env [fone; fone] [fone; fzero]
  = cosine_similarity Sample.env [fone; fzero] [fone; fone].
Proof.
  apply (cosine_similarity_symmetric Sample.env [fone; fone] [fone; fzero]).
  reflexivity.
Defined.

Lemma filter_threshold_monotone_witness :
  exists out w',
    filter_results_by_similarity Sample.env Sample.question Sample.results
      lit_0_3 [] = (Ok out, w') /\
    filter_results_by_similarity Sample.env Sample.question Sample.results
      Cases.lit_0_5 []
    = (Ok (filter (reaches Cases.lit_0_5) out), w').
Proof.
  eexists. eexists. split; [lazy; reflexivity|].
  eapply (filter_threshold_monotone Sample.env Sample.question Sample.results
            lit_0_3 Cases.lit_0_5 []).
  - discriminate.
  - reflexivity.
  - lazy. reflexivity.
Defined.

Lemma filter_ignores_old_scores_witness :
  fst (filter_results_by_similarity Sample.env Sample.question Sample.curated
         lit_0_3 [])
  = fst (filter_results_by_similarity Sample.env Sample.question
           (map clear_score Sample.curated) lit_0_3 []).
Proof.
  apply (filter_ignores_old_scores Sample.env Sample.question Sample.curated
           lit_0_3 []).
  discriminate.
Defined.

Lemma ask_sources_ranked_witness :
  exists b w' sources,
    ask Sample.env Sample.data [] = (Ok (b, 200), w') /\
    b_sources b = Some sources /\
    StronglySorted score_ge sources /\
    Forall (fun o => exists r, In r (found (Some Sample.items)) /\ same_text o r)
      sources.
Proof.
  eexists. eexists. eexists. split; [lazy; reflexivity|].
  split; [reflexivity|].
  eapply (ask_sources_ranked Sample.env Sample.data [] _ _ (Some Sample.items)).
  - lazy. reflexivity.
  - reflexivity.
  - reflexivity.
  - reflexivity.
Defined.

(** ** Further properties: every result embedding fails *)

Lemma loop_outcome_all_fail (env : environment) (qe : vec) (threshold : float)
    (rs : list search_result) :
  forall n acc,
    (forall i r, nth_error rs i = Some r ->
                 embedding_of env (n + i) (result_text r) = None) ->
    loop_outcome env qe threshold n rs acc = Ok acc.
Proof.
  induction rs as [|r rs IH]; intros n acc Hfail; [reflexivity|].
  cbn [loop_outcome].
  pose proof (Hfail 0 r eq_refl) as Hr. rewrite Nat.add_0_r in Hr. rewrite Hr.
  apply IH. intros i x Hi.
  replace (S n + i) with (n + S i) by lia. exact (Hfail (S i) x Hi).
Qed.

(** X16: when the question embeds and the embedding of every result fails,
    the filter returns the empty list, after one call for the question and
    one per result: unlike a failed question embedding, failed result
    embeddings never fall back to returning the input. *)
Theorem filter_all_embeddings_fail (env : environment) (question : string)
    (rs : list search_result) (threshold : float) (w : world) :
  embedding_of env (embed_calls w) question <> None ->
  (forall i r, nth_error rs i = Some r ->
     embedding_of env (S (embed_calls w) + i) (result_text r) = None) ->
  filter_results_by_similarity env question rs threshold w
  = (Ok [], (w ++ EmbedCall embedding_model question :: result_calls rs)%list).
Proof.
  intros Hq Hfail.
  destruct (embedding_of env (embed_calls w) question) as [qe|] eqn:Hqe;
    [|contradiction].
  pose proof (filter_results_by_similarity_run env question rs threshold w qe Hqe)
    as Hfst.
  rewrite (loop_outcome_all_fail env qe threshold rs _ [] Hfail) in Hfst.
  destruct (filter_results_by_similarity env question rs threshold w)
    as [o w'] eqn:Hrun.
  cbn in Hfst. subst o. f_equal.
  destruct (filter_calls_prefix _ _ _ _ _ _ _ Hrun) as [k [_ [Hw [_ Hk]]]].
  rewrite Hqe in Hk. rewrite (Hk ltac:(discriminate) _ eq_refl), firstn_all in Hw.
  exact Hw.
Qed.

Lemma filter_all_embeddings_fail_witness :
  filter_results_by_similarity Cases.env_results_fail Sample.question
    Sample.results lit_0_3 []
  = (Ok [], ([] ++ EmbedCall embedding_model Sample.question
                :: result_calls Sample.results)%list).
Proof.
  apply (filter_all_embeddings_fail Cases.env_results_fail Sample.question
           Sample.results lit_0_3 []).
  - discriminate.
  - intros i r _. reflexivity.
Defined.

(** ** The similarity in binary64 *)

Lemma binary_round_aux_negb (s : bool) (m e : Z) (l : location) :
  binary_round_aux prec emax (negb s) m e l
  = SFopp (binary_round_aux prec emax s m e l).
Proof.
  unfold binary_round_aux.
  destruct (shr_fexp prec emax m e l) as [mrs e'].
  destruct (shr_fexp prec emax _ e' loc_Exact) as [mrs' e''].
  destruct (shr_m mrs'); try reflexivity.
  destruct (e'' <=? emax - prec)%Z; reflexivity.
Qed.

(** Negating the dividend negates the binary64 quotient (a NaN stays NaN). *)
Lemma fdiv_opp_l (d y : float) : fdiv (fopp d) y = fopp (fdiv d y).
Proof.
  unfold fopp, fdiv, SFdiv.
  destruct d as [sd|sd| |sd md ed], y as [sy|sy| |sy my ey]; try reflexivity;
    cbn [SFopp]; try (destruct sd, sy; reflexivity).
  destruct (SFdiv_core_binary prec emax (Z.pos md) ed (Z.pos my) ey)
    as [[mz ez] lz].
  replace (xorb (negb sd) sy) with (negb (xorb sd sy))
    by (destruct sd, sy; reflexivity).
  apply binary_round_aux_negb.
Qed.

Lemma sample_dot_from_comm (a : vec) :
  forall b acc, Sample.dot_from a b acc = Sample.dot_from b a acc.
Proof.
  induction a as [|x a IH]; intros [|y b] acc; try reflexivity.
  cbn [Sample.dot_from]. rewrite (fmul_comm x y). apply IH.
Qed.

(** On the in-order kernels the similarity is symmetric on all vectors. *)
Lemma sample_similarity_symmetric : similarity_symmetric Sample.env.
Proof.
  intros a b _. unfold cosine_similarity. cbn [np_dot np_linalg_norm Sample.env].
  unfold Sample.dot. rewrite (sample_dot_from_comm a b).
  rewrite (fmul_comm (Sample.norm a) (Sample.norm b)). reflexivity.
Qed.

(** C7 as stated fails: in binary64 the similarity of [1, 1, 1] with itself
    is 1 + 2^-52, above 1, and that of [1, 1] with itself and with its
    negation is 1 - 2^-52 and its opposite, not 1.0 and -1.0. So neither the
    bound nor the two exact values hold, on vectors of non-zero norm. *)
Lemma cosine_similarity_exact_counterexample :
  cosine_similarity Sample.env [fone; fone; fone] [fone; fone; fone]
  = Ok (S754_finite false 4503599627370497 (-52)) /\
  cosine_similarity Sample.env [fone; fone] [fone; fone]
  = Ok (S754_finite false 9007199254740990 (-53)) /\
  cosine_similarity Sample.env [fone; fone] (negated [fone; fone])
  = Ok (S754_finite true 9007199254740990 (-53)) /\
  ~ similarity_in_range Sample.env /\
  ~ similarity_self_is_one Sample.env /\
  ~ similarity_negated_is_minus_one Sample.env /\
  ~ exact_similarity Sample.env.
Proof.
  assert (H3 : cosine_similarity Sample.env [fone; fone; fone] [fone; fone; fone]
               = Ok (S754_finite false 4503599627370497 (-52)))
    by (vm_compute; reflexivity).
  assert (H2 : cosine_similarity Sample.env [fone; fone] [fone; fone]
               = Ok (S754_finite false 9007199254740990 (-53)))
    by (vm_compute; reflexivity).
  assert (Hn : cosine_similarity Sample.env [fone; fone] (negated [fone; fone])
               = Ok (S754_finite true 9007199254740990 (-53)))
    by (vm_compute; reflexivity).
  assert (Hrange : ~ similarity_in_range Sample.env).
  { intros H.
    destruct (H [fone; fone; fone] [fone; fone; fone] _ eq_refl eq_refl eq_refl H3)
      as [_ Hle].
    vm_compute in Hle. discriminate. }
  assert (Hself : ~ similarity_self_is_one Sample.env).
  { intros H. pose proof (H [fone; fone] _ eq_refl H2) as Heq.
    vm_compute in Heq. discriminate. }
  assert (Hneg : ~ similarity_negated_is_minus_one Sample.env).
  { intros H. pose proof (H [fone; fone] _ eq_refl Hn) as Heq.
    vm_compute in Heq. discriminate. }
  repeat split; try assumption.
  intros [H _]. exact (Hrange H).
Qed.

(** C7, as amended: the similarity is the binary64 quotient of np.dot by the
    binary64 product of the two norms, and raises what np.dot raises; it is
    symmetric on every pair on which np.dot is; and where negating one
    argument negates np.dot and keeps the norm, the similarity of [v] and
    [-v] is exactly the opposite of that of [v] and [v]. No exact bound and
    no exact value 1.0 or -1.0 is stated. *)
Theorem cosine_similarity_binary64 (env : environment) (a b v : vec) (d : float) :
  np_dot env a b = np_dot env b a ->
  np_dot env v v = Ok d ->
  np_dot env v (negated v) = Ok (fopp d) ->
  np_linalg_norm env (negated v) = np_linalg_norm env v ->
  cosine_similarity env a b
  = match np_dot env a b with
    | Ok x => Ok (fdiv x (fmul (np_linalg_norm env a) (np_linalg_norm env b)))
    | Raise e => Raise e
    end /\
  cosine_similarity env a b = cosine_similarity env b a /\
  exists c,
    cosine_similarity env v v = Ok c /\
    cosine_similarity env v (negated v) = Ok (fopp c).
Proof.
  intros Hsym Hd Hneg Hnorm. split; [reflexivity|]. split.
  - unfold cosine_similarity. rewrite Hsym.
    rewrite (fmul_comm (np_linalg_norm env a) (np_linalg_norm env b)).
    reflexivity.
  - exists (fdiv d (fmul (np_linalg_norm env v) (np_linalg_norm env v))).
    unfold cosine_similarity. rewrite Hd, Hneg, Hnorm, fdiv_opp_l.
    split; reflexivity.
Qed.

Lemma cosine_similarity_binary64_witness :
  cosine_similarity Sample.env [fone; fone] [fone; fzero]
  = cosine_similarity Sample.env [fone; fzero] [fone; fone] /\
  exists c,
    cosine_similarity Sample.env [fone; fone; fone] [fone; fone; fone] = Ok c /\
    cosine_similarity Sample.env [fone; fone; fone] (negated [fone; fone; fone])
    = Ok (fopp c).
Proof.
  destruct (cosine_similarity_binary64 Sample.env [fone; fone] [fone; fzero]
              [fone; fone; fone] (S754_finite false 6755399441055744 (-51)))
    as [_ [Hsym Hneg]]; try reflexivity.
  split; [exact Hsym | exact Hneg].
Defined.
